(** * Sri Lankan cities import script: a shallow embedding and its properties

    The development embeds [scripts/import_sri_lankan_cities.py]: the helper
    [clean_value], the batch function [generate_sql_migration] and the entry
    point [main].  The values the script manipulates are the ones
    [json.load] produces; Python's built-in operations on them ([str],
    [repr], [float], [len], [dict.get] ...) are modelled in the first part,
    the script itself in the second, and the properties of the script are
    proved in the third. *)

From Stdlib Require Import ZArith List String Ascii Bool.
From Stdlib Require Import Floats.SpecFloat.
From Stdlib Require Import Numbers.DecimalString.
Import ListNotations.

Local Open Scope string_scope.
Local Open Scope Z_scope.

(** ** Text helpers *)

Module Text.

Definition nl : string := String (ascii_of_nat 10) EmptyString.
Definition squote : ascii := ascii_of_nat 39.
Definition dquote : ascii := ascii_of_nat 34.
Definition backslash : ascii := ascii_of_nat 92.

Definition str1 (c : ascii) : string := String c EmptyString.

Fixpoint of_bytes (l : list nat) : string :=
  match l with
  | [] => EmptyString
  | b :: l' => String (ascii_of_nat b) (of_bytes l')
  end.

(** [sep.join(items)] *)
Fixpoint join (sep : string) (items : list string) : string :=
  match items with
  | [] => EmptyString
  | [x] => x
  | x :: rest => x ++ sep ++ join sep rest
  end.

(** [s.startswith(p)], returning the remainder of [s] after [p]. *)
Fixpoint strip_prefix (p s : string) : option string :=
  match p with
  | EmptyString => Some s
  | String a p' =>
      match s with
      | EmptyString => None
      | String b s' => if Ascii.eqb a b then strip_prefix p' s' else None
      end
  end.

(** [s.replace(old, new)] for a non-empty [old]: the occurrences of [old]
    are found from the left and do not overlap. *)
Fixpoint replace_fuel (fuel : nat) (old new s : string) : string :=
  match fuel with
  | O => s
  | S fuel' =>
      match strip_prefix old s with
      | Some rest => new ++ replace_fuel fuel' old new rest
      | None =>
          match s with
          | EmptyString => EmptyString
          | String c s' => String c (replace_fuel fuel' old new s')
          end
      end
  end.

Definition replace (old new s : string) : string :=
  replace_fuel (S (String.length s)) old new s.

Definition lower_ascii (c : ascii) : ascii :=
  let n := nat_of_ascii c in
  if (Nat.leb 65 n && Nat.leb n 90)%bool then ascii_of_nat (n + 32) else c.

(** [s.lower()] on ASCII text. *)
Fixpoint lower (s : string) : string :=
  match s with
  | EmptyString => EmptyString
  | String c s' => String (lower_ascii c) (lower s')
  end.

Fixpoint contains_char (c : ascii) (s : string) : bool :=
  match s with
  | EmptyString => false
  | String a s' => Ascii.eqb a c || contains_char c s'
  end.

Definition is_empty (s : string) : bool :=
  match s with EmptyString => true | _ => false end.

Fixpoint repeat_string (n : nat) (s : string) : string :=
  match n with
  | O => EmptyString
  | S n' => s ++ repeat_string n' s
  end.

(** [str(n)] for a Python [int]. *)
Definition of_Z (z : Z) : string := NilZero.string_of_int (Z.to_int z).

Definition of_nat (n : nat) : string := of_Z (Z.of_nat n).

Definition hex_digit (n : nat) : ascii :=
  if Nat.ltb n 10 then ascii_of_nat (48 + n) else ascii_of_nat (87 + n).

(** [x] in lower-case hexadecimal, on [width] digits. *)
Fixpoint hex (width : nat) (x : N) : string :=
  match width with
  | O => EmptyString
  | S width' =>
      hex width' (x / 16)%N ++ str1 (hex_digit (N.to_nat (x mod 16)%N))
  end.

End Text.

(** ** Unicode text

    A [str] is kept as the bytes of its UTF-8 encoding.  The tables are
    those of the Unicode Character Database 14.0.0, the one of CPython
    3.11. *)

Module Unicode.

(** A byte [10xxxxxx] continues the character before it. *)
Definition is_continuation (c : ascii) : bool :=
  let n := nat_of_ascii c in Nat.leb 128 n && Nat.ltb n 192.

(** The characters of a text, each with its own bytes. *)
Fixpoint chars (s : string) : list string :=
  match s with
  | EmptyString => []
  | String c s' =>
      match chars s' with
      | t :: rest =>
          match t with
          | String d _ => if is_continuation d then String c t :: rest
                          else Text.str1 c :: t :: rest
          | EmptyString => Text.str1 c :: rest
          end
      | [] => [Text.str1 c]
      end
  end.

Fixpoint continuation_bits (acc : N) (s : string) : N :=
  match s with
  | EmptyString => acc
  | String c s' =>
      continuation_bits (acc * 64 + N.of_nat (nat_of_ascii c) mod 64)%N s'
  end.

(** The code point of one character. *)
Definition code_point (c : string) : N :=
  match c with
  | EmptyString => 0%N
  | String b rest =>
      let n := N.of_nat (nat_of_ascii b) in
      let lead := if (n <? 128)%N then n
                  else if (n <? 224)%N then (n mod 32)%N
                  else if (n <? 240)%N then (n mod 16)%N
                  else (n mod 8)%N in
      continuation_bits lead rest
  end.

Definition is_ascii (s : string) : bool :=
  forallb (fun c => Nat.ltb (nat_of_ascii c) 128) (list_ascii_of_string s).

(** White space beyond ASCII ([str.isspace]). *)
Definition spaces : list N :=
  [ 133; 160; 5760; 8192; 8193; 8194; 8195; 8196; 8197; 8198; 8199; 8200;
    8201; 8202; 8232; 8233; 8239; 8287; 12288 ]%N.

Definition is_space (cp : N) : bool := existsb (N.eqb cp) spaces.

(** The digit zero of each run of ten decimal digits beyond ASCII. *)
Definition decimal_zeros : list N :=
  [ 1632; 1776; 1984; 2406; 2534; 2662; 2790; 2918; 3046; 3174; 3302; 3430;
    3558; 3664; 3792; 3872; 4160; 4240; 6112; 6160; 6470; 6608; 6784; 6800;
    6992; 7088; 7232; 7248; 42528; 43216; 43264; 43472; 43504; 43600; 44016;
    65296; 66720; 68912; 69734; 69872; 69942; 70096; 70384; 70736; 70864;
    71248; 71360; 71472; 71904; 72016; 72784; 73040; 73120; 92768; 92864;
    93008; 120782; 120792; 120802; 120812; 120822; 123200; 123632; 125264;
    130032 ]%N.

(** The value of a decimal digit, if the character is one. *)
Definition decimal_value (cp : N) : option N :=
  match filter (fun z => (z <=? cp)%N && (cp <? z + 10)%N) decimal_zeros with
  | z :: _ => Some (cp - z)%N
  | [] => None
  end.

(** The code points beyond ASCII that [str.isprintable] refuses: the first
    and the last of each run. *)
Definition unprintable : list (N * N) :=
  [ (128, 160); (173, 173); (888, 889); (896, 899); (907, 907); (909, 909);
    (930, 930); (1328, 1328); (1367, 1368); (1419, 1420); (1424, 1424);
    (1480, 1487); (1515, 1518); (1525, 1541); (1564, 1564); (1757, 1757);
    (1806, 1807); (1867, 1868); (1970, 1983); (2043, 2044); (2094, 2095);
    (2111, 2111); (2140, 2141); (2143, 2143); (2155, 2159); (2191, 2199);
    (2274, 2274); (2436, 2436); (2445, 2446); (2449, 2450); (2473, 2473);
    (2481, 2481); (2483, 2485); (2490, 2491); (2501, 2502); (2505, 2506);
    (2511, 2518); (2520, 2523); (2526, 2526); (2532, 2533); (2559, 2560);
    (2564, 2564); (2571, 2574); (2577, 2578); (2601, 2601); (2609, 2609);
    (2612, 2612); (2615, 2615); (2618, 2619); (2621, 2621); (2627, 2630);
    (2633, 2634); (2638, 2640); (2642, 2648); (2653, 2653); (2655, 2661);
    (2679, 2688); (2692, 2692); (2702, 2702); (2706, 2706); (2729, 2729);
    (2737, 2737); (2740, 2740); (2746, 2747); (2758, 2758); (2762, 2762);
    (2766, 2767); (2769, 2783); (2788, 2789); (2802, 2808); (2816, 2816);
    (2820, 2820); (2829, 2830); (2833, 2834); (2857, 2857); (2865, 2865);
    (2868, 2868); (2874, 2875); (2885, 2886); (2889, 2890); (2894, 2900);
    (2904, 2907); (2910, 2910); (2916, 2917); (2936, 2945); (2948, 2948);
    (2955, 2957); (2961, 2961); (2966, 2968); (2971, 2971); (2973, 2973);
    (2976, 2978); (2981, 2983); (2987, 2989); (3002, 3005); (3011, 3013);
    (3017, 3017); (3022, 3023); (3025, 3030); (3032, 3045); (3067, 3071);
    (3085, 3085); (3089, 3089); (3113, 3113); (3130, 3131); (3141, 3141);
    (3145, 3145); (3150, 3156); (3159, 3159); (3163, 3164); (3166, 3167);
    (3172, 3173); (3184, 3190); (3213, 3213); (3217, 3217); (3241, 3241);
    (3252, 3252); (3258, 3259); (3269, 3269); (3273, 3273); (3278, 3284);
    (3287, 3292); (3295, 3295); (3300, 3301); (3312, 3312); (3315, 3327);
    (3341, 3341); (3345, 3345); (3397, 3397); (3401, 3401); (3408, 3411);
    (3428, 3429); (3456, 3456); (3460, 3460); (3479, 3481); (3506, 3506);
    (3516, 3516); (3518, 3519); (3527, 3529); (3531, 3534); (3541, 3541);
    (3543, 3543); (3552, 3557); (3568, 3569); (3573, 3584); (3643, 3646);
    (3676, 3712); (3715, 3715); (3717, 3717); (3723, 3723); (3748, 3748);
    (3750, 3750); (3774, 3775); (3781, 3781); (3783, 3783); (3790, 3791);
    (3802, 3803); (3808, 3839); (3912, 3912); (3949, 3952); (3992, 3992);
    (4029, 4029); (4045, 4045); (4059, 4095); (4294, 4294); (4296, 4300);
    (4302, 4303); (4681, 4681); (4686, 4687); (4695, 4695); (4697, 4697);
    (4702, 4703); (4745, 4745); (4750, 4751); (4785, 4785); (4790, 4791);
    (4799, 4799); (4801, 4801); (4806, 4807); (4823, 4823); (4881, 4881);
    (4886, 4887); (4955, 4956); (4989, 4991); (5018, 5023); (5110, 5111);
    (5118, 5119); (5760, 5760); (5789, 5791); (5881, 5887); (5910, 5918);
    (5943, 5951); (5972, 5983); (5997, 5997); (6001, 6001); (6004, 6015);
    (6110, 6111); (6122, 6127); (6138, 6143); (6158, 6158); (6170, 6175);
    (6265, 6271); (6315, 6319); (6390, 6399); (6431, 6431); (6444, 6447);
    (6460, 6463); (6465, 6467); (6510, 6511); (6517, 6527); (6572, 6575);
    (6602, 6607); (6619, 6621); (6684, 6685); (6751, 6751); (6781, 6782);
    (6794, 6799); (6810, 6815); (6830, 6831); (6863, 6911); (6989, 6991);
    (7039, 7039); (7156, 7163); (7224, 7226); (7242, 7244); (7305, 7311);
    (7355, 7356); (7368, 7375); (7419, 7423); (7958, 7959); (7966, 7967);
    (8006, 8007); (8014, 8015); (8024, 8024); (8026, 8026); (8028, 8028);
    (8030, 8030); (8062, 8063); (8117, 8117); (8133, 8133); (8148, 8149);
    (8156, 8156); (8176, 8177); (8181, 8181); (8191, 8207); (8232, 8239);
    (8287, 8303); (8306, 8307); (8335, 8335); (8349, 8351); (8385, 8399);
    (8433, 8447); (8588, 8591); (9255, 9279); (9291, 9311); (11124, 11125);
    (11158, 11158); (11508, 11512); (11558, 11558); (11560, 11564);
    (11566, 11567); (11624, 11630); (11633, 11646); (11671, 11679);
    (11687, 11687); (11695, 11695); (11703, 11703); (11711, 11711);
    (11719, 11719); (11727, 11727); (11735, 11735); (11743, 11743);
    (11870, 11903); (11930, 11930); (12020, 12031); (12246, 12271);
    (12284, 12288); (12352, 12352); (12439, 12440); (12544, 12548);
    (12592, 12592); (12687, 12687); (12772, 12783); (12831, 12831);
    (42125, 42127); (42183, 42191); (42540, 42559); (42744, 42751);
    (42955, 42959); (42962, 42962); (42964, 42964); (42970, 42993);
    (43053, 43055); (43066, 43071); (43128, 43135); (43206, 43213);
    (43226, 43231); (43348, 43358); (43389, 43391); (43470, 43470);
    (43482, 43485); (43519, 43519); (43575, 43583); (43598, 43599);
    (43610, 43611); (43715, 43738); (43767, 43776); (43783, 43784);
    (43791, 43792); (43799, 43807); (43815, 43815); (43823, 43823);
    (43884, 43887); (44014, 44015); (44026, 44031); (55204, 55215);
    (55239, 55242); (55292, 63743); (64110, 64111); (64218, 64255);
    (64263, 64274); (64280, 64284); (64311, 64311); (64317, 64317);
    (64319, 64319); (64322, 64322); (64325, 64325); (64451, 64466);
    (64912, 64913); (64968, 64974); (64976, 65007); (65050, 65055);
    (65107, 65107); (65127, 65127); (65132, 65135); (65141, 65141);
    (65277, 65280); (65471, 65473); (65480, 65481); (65488, 65489);
    (65496, 65497); (65501, 65503); (65511, 65511); (65519, 65531);
    (65534, 65535); (65548, 65548); (65575, 65575); (65595, 65595);
    (65598, 65598); (65614, 65615); (65630, 65663); (65787, 65791);
    (65795, 65798); (65844, 65846); (65935, 65935); (65949, 65951);
    (65953, 65999); (66046, 66175); (66205, 66207); (66257, 66271);
    (66300, 66303); (66340, 66348); (66379, 66383); (66427, 66431);
    (66462, 66462); (66500, 66503); (66518, 66559); (66718, 66719);
    (66730, 66735); (66772, 66775); (66812, 66815); (66856, 66863);
    (66916, 66926); (66939, 66939); (66955, 66955); (66963, 66963);
    (66966, 66966); (66978, 66978); (66994, 66994); (67002, 67002);
    (67005, 67071); (67383, 67391); (67414, 67423); (67432, 67455);
    (67462, 67462); (67505, 67505); (67515, 67583); (67590, 67591);
    (67593, 67593); (67638, 67638); (67641, 67643); (67645, 67646);
    (67670, 67670); (67743, 67750); (67760, 67807); (67827, 67827);
    (67830, 67834); (67868, 67870); (67898, 67902); (67904, 67967);
    (68024, 68027); (68048, 68049); (68100, 68100); (68103, 68107);
    (68116, 68116); (68120, 68120); (68150, 68151); (68155, 68158);
    (68169, 68175); (68185, 68191); (68256, 68287); (68327, 68330);
    (68343, 68351); (68406, 68408); (68438, 68439); (68467, 68471);
    (68498, 68504); (68509, 68520); (68528, 68607); (68681, 68735);
    (68787, 68799); (68851, 68857); (68904, 68911); (68922, 69215);
    (69247, 69247); (69290, 69290); (69294, 69295); (69298, 69375);
    (69416, 69423); (69466, 69487); (69514, 69551); (69580, 69599);
    (69623, 69631); (69710, 69713); (69750, 69758); (69821, 69821);
    (69827, 69839); (69865, 69871); (69882, 69887); (69941, 69941);
    (69960, 69967); (70007, 70015); (70112, 70112); (70133, 70143);
    (70162, 70162); (70207, 70271); (70279, 70279); (70281, 70281);
    (70286, 70286); (70302, 70302); (70314, 70319); (70379, 70383);
    (70394, 70399); (70404, 70404); (70413, 70414); (70417, 70418);
    (70441, 70441); (70449, 70449); (70452, 70452); (70458, 70458);
    (70469, 70470); (70473, 70474); (70478, 70479); (70481, 70486);
    (70488, 70492); (70500, 70501); (70509, 70511); (70517, 70655);
    (70748, 70748); (70754, 70783); (70856, 70863); (70874, 71039);
    (71094, 71095); (71134, 71167); (71237, 71247); (71258, 71263);
    (71277, 71295); (71354, 71359); (71370, 71423); (71451, 71452);
    (71468, 71471); (71495, 71679); (71740, 71839); (71923, 71934);
    (71943, 71944); (71946, 71947); (71956, 71956); (71959, 71959);
    (71990, 71990); (71993, 71994); (72007, 72015); (72026, 72095);
    (72104, 72105); (72152, 72153); (72165, 72191); (72264, 72271);
    (72355, 72367); (72441, 72703); (72713, 72713); (72759, 72759);
    (72774, 72783); (72813, 72815); (72848, 72849); (72872, 72872);
    (72887, 72959); (72967, 72967); (72970, 72970); (73015, 73017);
    (73019, 73019); (73022, 73022); (73032, 73039); (73050, 73055);
    (73062, 73062); (73065, 73065); (73103, 73103); (73106, 73106);
    (73113, 73119); (73130, 73439); (73465, 73647); (73649, 73663);
    (73714, 73726); (74650, 74751); (74863, 74863); (74869, 74879);
    (75076, 77711); (77811, 77823); (78895, 82943); (83527, 92159);
    (92729, 92735); (92767, 92767); (92778, 92781); (92863, 92863);
    (92874, 92879); (92910, 92911); (92918, 92927); (92998, 93007);
    (93018, 93018); (93026, 93026); (93048, 93052); (93072, 93759);
    (93851, 93951); (94027, 94030); (94088, 94094); (94112, 94175);
    (94181, 94191); (94194, 94207); (100344, 100351); (101590, 101631);
    (101641, 110575); (110580, 110580); (110588, 110588); (110591, 110591);
    (110883, 110927); (110931, 110947); (110952, 110959); (111356, 113663);
    (113771, 113775); (113789, 113791); (113801, 113807); (113818, 113819);
    (113824, 118527); (118574, 118575); (118599, 118607); (118724, 118783);
    (119030, 119039); (119079, 119080); (119155, 119162); (119275, 119295);
    (119366, 119519); (119540, 119551); (119639, 119647); (119673, 119807);
    (119893, 119893); (119965, 119965); (119968, 119969); (119971, 119972);
    (119975, 119976); (119981, 119981); (119994, 119994); (119996, 119996);
    (120004, 120004); (120070, 120070); (120075, 120076); (120085, 120085);
    (120093, 120093); (120122, 120122); (120127, 120127); (120133, 120133);
    (120135, 120137); (120145, 120145); (120486, 120487); (120780, 120781);
    (121484, 121498); (121504, 121504); (121520, 122623); (122655, 122879);
    (122887, 122887); (122905, 122906); (122914, 122914); (122917, 122917);
    (122923, 123135); (123181, 123183); (123198, 123199); (123210, 123213);
    (123216, 123535); (123567, 123583); (123642, 123646); (123648, 124895);
    (124903, 124903); (124908, 124908); (124911, 124911); (124927, 124927);
    (125125, 125126); (125143, 125183); (125260, 125263); (125274, 125277);
    (125280, 126064); (126133, 126208); (126270, 126463); (126468, 126468);
    (126496, 126496); (126499, 126499); (126501, 126502); (126504, 126504);
    (126515, 126515); (126520, 126520); (126522, 126522); (126524, 126529);
    (126531, 126534); (126536, 126536); (126538, 126538); (126540, 126540);
    (126544, 126544); (126547, 126547); (126549, 126550); (126552, 126552);
    (126554, 126554); (126556, 126556); (126558, 126558); (126560, 126560);
    (126563, 126563); (126565, 126566); (126571, 126571); (126579, 126579);
    (126584, 126584); (126589, 126589); (126591, 126591); (126602, 126602);
    (126620, 126624); (126628, 126628); (126634, 126634); (126652, 126703);
    (126706, 126975); (127020, 127023); (127124, 127135); (127151, 127152);
    (127168, 127168); (127184, 127184); (127222, 127231); (127406, 127461);
    (127491, 127503); (127548, 127551); (127561, 127567); (127570, 127583);
    (127590, 127743); (128728, 128732); (128749, 128751); (128765, 128767);
    (128884, 128895); (128985, 128991); (129004, 129007); (129009, 129023);
    (129036, 129039); (129096, 129103); (129114, 129119); (129160, 129167);
    (129198, 129199); (129202, 129279); (129620, 129631); (129646, 129647);
    (129653, 129655); (129661, 129663); (129671, 129679); (129709, 129711);
    (129723, 129727); (129734, 129743); (129754, 129759); (129768, 129775);
    (129783, 129791); (129939, 129939); (129995, 130031); (130042, 131071);
    (173792, 173823); (177977, 177983); (178206, 178207); (183970, 183983);
    (191457, 194559); (195102, 196607); (201547, 917759); (918000, 1114111) ]%N.

Definition is_printable (cp : N) : bool :=
  negb (existsb (fun r => (fst r <=? cp)%N && (cp <=? snd r)%N) unprintable).

End Unicode.

(** ** Python floats (IEEE 754 binary64)

    A float is a [spec_float] in canonical form: a 53-bit mantissa, or a
    shorter one at the least exponent -1074 for the subnormal numbers.  The
    comparisons are those of IEEE 754: the two zeros are equal and a NaN
    compares false with everything. *)

Module PyFloat.

Definition float : Type := spec_float.

Definition prec : Z := 53.
Definition emax : Z := 1024.

Definition pos_zero : float := S754_zero false.

(** [float(n)] for a Python [int]: rounded to nearest, ties to even;
    [None] stands for [OverflowError]. *)
Definition of_Z (z : Z) : option float :=
  match binary_normalize prec emax z 0 false with
  | S754_infinity _ => None
  | f => Some f
  end.

(** The float nearest to [d * 10^q], as [float("...")] and float literals
    compute it (overflow gives an infinity). *)
Definition of_decimal (neg : bool) (d q : Z) : float :=
  match d with
  | Zpos _ =>
      if 0 <=? q
      then binary_normalize prec emax ((if neg then - d else d) * 10 ^ q) 0 false
      else
        let '(mz, ez, lz) := SFdiv_core_binary prec emax d 0 (10 ^ (- q)) 0 in
        binary_round_aux prec emax neg mz ez lz
  | _ => S754_zero neg
  end.

Definition eqb (x y : float) : bool := SFeqb x y.
Definition leb (x y : float) : bool := SFleb x y.

(** *** [repr] of a float: the shortest decimal string that reads back as
    the same float, the closest such string when there are several. *)

(** Comparison of [cn * 10^cq] with [bn * 2^be]. *)
Definition dec_cmp_bin (cn cq bn be : Z) : comparison :=
  (cn * 10 ^ Z.max cq 0 * 2 ^ Z.max (- be) 0)
    ?= (bn * 2 ^ Z.max be 0 * 10 ^ Z.max (- cq) 0).

(** [floor (log10 (m * 2^e))] *)
Definition floor_log10 (m e : Z) : Z :=
  let k0 := ((Z.log2 m + e) * 30103) / 100000 - 1 in
  let bump k := match dec_cmp_bin 1 (k + 1) m e with Gt => k | _ => k + 1 end in
  bump (bump (bump k0)).

(** Does [d * 10^q] read back as the float [m * 2^e]? *)
Definition reads_back (m e d q : Z) : bool :=
  let boundary := (m =? 2 ^ (prec - 1)) && (3 - emax - prec <? e) in
  let lo := if boundary then 4 * m - 1 else 4 * m - 2 in
  let hi := 4 * m + 2 in
  let ok_lo := match dec_cmp_bin d q lo (e - 2) with
               | Gt => true | Eq => Z.even m | Lt => false end in
  let ok_hi := match dec_cmp_bin d q hi (e - 2) with
               | Lt => true | Eq => Z.even m | Gt => false end in
  ok_lo && ok_hi.

(** The best candidate with [n] significant digits, if one reads back. *)
Definition candidate (m e k n : Z) : option (Z * Z) :=
  let q := k - n + 1 in
  let num := m * 2 ^ Z.max e 0 * 10 ^ Z.max (- q) 0 in
  let den := 2 ^ Z.max (- e) 0 * 10 ^ Z.max q 0 in
  let dlo := num / den in
  let dhi := dlo + 1 in
  match reads_back m e dlo q, reads_back m e dhi q with
  | true, true =>
      match dec_cmp_bin (2 * dlo + 1) q (2 * m) e with
      | Gt => Some (dlo, q)
      | Lt => Some (dhi, q)
      | Eq => Some (if Z.even dlo then dlo else dhi, q)
      end
  | true, false => Some (dlo, q)
  | false, true => Some (dhi, q)
  | false, false => None
  end.

Fixpoint shortest_from (fuel : nat) (m e k n : Z) : Z * Z :=
  match fuel with
  | O => (m * 2 ^ Z.max e 0 * 10 ^ Z.max (- (k - n + 1)) 0
            / (2 ^ Z.max (- e) 0 * 10 ^ Z.max (k - n + 1) 0), k - n + 1)
  | S fuel' =>
      match candidate m e k n with
      | Some r => r
      | None => shortest_from fuel' m e k (n + 1)
      end
  end.

Fixpoint strip_zeros (fuel : nat) (d q : Z) : Z * Z :=
  match fuel with
  | O => (d, q)
  | S fuel' => if (d mod 10 =? 0) && negb (d =? 0)
               then strip_zeros fuel' (d / 10) (q + 1) else (d, q)
  end.

(** Digits and decimal point position: the value is [0.DIGITS * 10^decpt]. *)
Definition shortest_digits (m e : Z) : string * Z :=
  let k := floor_log10 m e in
  let '(d, q) := shortest_from 17 m e k 1 in
  let '(d, q) := strip_zeros 20 d q in
  let ds := Text.of_Z d in
  (ds, Z.of_nat (String.length ds) + q).

Definition format_exponent (x : Z) : string :=
  let a := Text.of_Z (Z.abs x) in
  (if x <? 0 then "e-" else "e+")
    ++ (if Nat.ltb (String.length a) 2 then "0" ++ a else a).

Definition format_digits (ds : string) (decpt : Z) : string :=
  let nd := Z.of_nat (String.length ds) in
  if (decpt <=? -4) || (16 <? decpt) then
    String.substring 0 1 ds
      ++ (if 1 <? nd then "." ++ String.substring 1 (String.length ds - 1) ds
          else EmptyString)
      ++ format_exponent (decpt - 1)
  else if decpt <=? 0 then
    "0." ++ Text.repeat_string (Z.to_nat (- decpt)) "0" ++ ds
  else if nd <=? decpt then
    ds ++ Text.repeat_string (Z.to_nat (decpt - nd)) "0" ++ ".0"
  else
    String.substring 0 (Z.to_nat decpt) ds ++ "."
      ++ String.substring (Z.to_nat decpt) (String.length ds - Z.to_nat decpt) ds.

(** [repr(x)], which is also [str(x)] and what an f-string field shows. *)
Definition repr (x : float) : string :=
  match x with
  | S754_nan => "nan"
  | S754_infinity s => if s then "-inf" else "inf"
  | S754_zero s => if s then "-0.0" else "0.0"
  | S754_finite s m e =>
      let '(ds, decpt) := shortest_digits (Zpos m) e in
      (if s then "-" else EmptyString) ++ format_digits ds decpt
  end.

End PyFloat.

(** *** [float("...")]: text to float *)

Module FloatParse.

(** The text as [float] reads it.  An all-ASCII text is read as it is.  In
    any other text a white space becomes a space and a decimal digit of any
    script its ASCII digit, while the first character beyond ASCII that is
    neither becomes a question mark, where the text is cut. *)
Fixpoint transform (cs : list string) : list ascii :=
  match cs with
  | [] => []
  | c :: rest =>
      let cp := Unicode.code_point c in
      if (cp <? 127)%N then ascii_of_N cp :: transform rest
      else if Unicode.is_space cp then " "%char :: transform rest
      else match Unicode.decimal_value cp with
           | Some d => ascii_of_N (48 + d) :: transform rest
           | None => ["?"%char]
           end
  end.

Definition to_ascii (s : string) : list ascii :=
  if Unicode.is_ascii s then list_ascii_of_string s
  else transform (Unicode.chars s).

(** The white space stripped at both ends: tab, line feed, vertical tab,
    form feed, carriage return and space. *)
Definition is_space (c : ascii) : bool :=
  let n := nat_of_ascii c in
  (Nat.leb 9 n && Nat.leb n 13) || Nat.eqb n 32.

(** A digit of the text that [to_ascii] gives, where the decimal digits
    of every script have become ASCII digits. *)
Definition is_digit (c : ascii) : bool :=
  let n := nat_of_ascii c in Nat.leb 48 n && Nat.leb n 57.

Definition digit_val (c : ascii) : Z := Z.of_nat (nat_of_ascii c) - 48.

Fixpoint lstrip (l : list ascii) : list ascii :=
  match l with
  | c :: l' => if is_space c then lstrip l' else l
  | [] => []
  end.

Definition strip (l : list ascii) : list ascii := rev (lstrip (rev (lstrip l))).

(** The rest of a [digitpart] after a digit: digits, each optionally
    preceded by one underscore. *)
Fixpoint digitpart_tail (l : list ascii) : list ascii * list ascii :=
  match l with
  | c :: l' =>
      if is_digit c then
        let '(ds, r) := digitpart_tail l' in (c :: ds, r)
      else if Ascii.eqb c "_" then
        match l' with
        | d :: l'' =>
            if is_digit d then
              let '(ds, r) := digitpart_tail l'' in (d :: ds, r)
            else ([], l)
        | [] => ([], l)
        end
      else ([], l)
  | [] => ([], [])
  end.

(** An optional [digitpart]: its digits (none if absent) and what follows. *)
Definition digitpart (l : list ascii) : list ascii * list ascii :=
  match l with
  | c :: l' =>
      if is_digit c then let '(ds, r) := digitpart_tail l' in (c :: ds, r)
      else ([], l)
  | [] => ([], [])
  end.

Definition digits_val (ds : list ascii) : Z :=
  fold_left (fun acc c => 10 * acc + digit_val c) ds 0.

Definition split_sign (l : list ascii) : bool * list ascii :=
  match l with
  | c :: l' =>
      if Ascii.eqb c "-" then (true, l')
      else if Ascii.eqb c "+" then (false, l')
      else (false, l)
  | [] => (false, [])
  end.

(** The exponent part: its value and what follows; [None] when an [e] is
    not followed by digits. *)
Definition exponent (l : list ascii) : option (Z * list ascii) :=
  match l with
  | c :: l' =>
      if Ascii.eqb (Text.lower_ascii c) "e" then
        let '(neg, l'') := split_sign l' in
        match digitpart l'' with
        | ([], _) => None
        | (ds, r) => Some (if neg then - digits_val ds else digits_val ds, r)
        end
      else Some (0, l)
  | [] => Some (0, [])
  end.

Definition number (neg : bool) (l : list ascii) : option PyFloat.float :=
  let '(ip, r1) := digitpart l in
  let '(fp, r2) :=
    match r1 with
    | c :: r1' => if Ascii.eqb c "." then digitpart r1' else ([], r1)
    | [] => ([], [])
    end in
  match (ip ++ fp)%list with
  | [] => None
  | ds =>
      match exponent r2 with
      | Some (x, []) =>
          Some (PyFloat.of_decimal neg (digits_val ds)
                  (x - Z.of_nat (List.length fp)))
      | _ => None
      end
  end.

(** [float(s)] for a [str]; [None] stands for [ValueError]. *)
Definition of_string (s : string) : option PyFloat.float :=
  let '(neg, body) := split_sign (strip (to_ascii s)) in
  let word := Text.lower (string_of_list_ascii body) in
  if String.eqb word "inf" || String.eqb word "infinity"
  then Some (S754_infinity neg)
  else if String.eqb word "nan" then Some S754_nan
  else number neg body.

End FloatParse.

(** ** The values [json.load] produces, and Python's built-ins on them

    A [str] is the sequence of the bytes of its UTF-8 encoding.  The members
    of a [dict] are kept in insertion order, each key once.  The messages of
    the exceptions are those of CPython 3.10 and later. *)

Local Unset Elimination Schemes.

Inductive json : Type :=
| JNull
| JBool (b : bool)
| JInt (n : Z)
| JFloat (x : PyFloat.float)
| JStr (s : string)
| JArr (items : list json)
| JObj (members : list (string * json)).

Local Set Elimination Schemes.

(** Exceptions, all of them subclasses of [Exception]. *)
Inductive exn_kind : Type :=
| AttributeError | TypeError | ValueError | OverflowError | OSError.

Record exn : Type := Exn { exn_class : exn_kind; exn_message : string }.

Inductive result (A : Type) : Type :=
| Return (a : A)
| Raise (e : exn).
Arguments Return {A} a.
Arguments Raise {A} e.

Module Py.

Definition type_name (v : json) : string :=
  match v with
  | JNull => "NoneType"
  | JBool _ => "bool"
  | JInt _ => "int"
  | JFloat _ => "float"
  | JStr _ => "str"
  | JArr _ => "list"
  | JObj _ => "dict"
  end.

Definition repr_ascii (q c : ascii) : string :=
  let n := nat_of_ascii c in
  if Ascii.eqb c q || Ascii.eqb c Text.backslash
  then String Text.backslash (Text.str1 c)
  else if Nat.eqb n 9 then String Text.backslash "t"
  else if Nat.eqb n 10 then String Text.backslash "n"
  else if Nat.eqb n 13 then String Text.backslash "r"
  else if Nat.ltb n 32 || Nat.eqb n 127
  then String Text.backslash ("x" ++ Text.hex 2 (N.of_nat n))
  else Text.str1 c.

(** One character inside [repr(s)]: a character beyond ASCII is kept when
    it is printable and escaped by its code point otherwise. *)
Definition repr_char (q : ascii) (c : string) : string :=
  let cp := Unicode.code_point c in
  match c with
  | String b EmptyString => repr_ascii q b
  | _ =>
      if Unicode.is_printable cp then c
      else if (cp <? 256)%N then String Text.backslash ("x" ++ Text.hex 2 cp)
      else if (cp <? 65536)%N then String Text.backslash ("u" ++ Text.hex 4 cp)
      else String Text.backslash ("U" ++ Text.hex 8 cp)
  end.

Fixpoint repr_chars (q : ascii) (cs : list string) : string :=
  match cs with
  | [] => EmptyString
  | c :: rest => repr_char q c ++ repr_chars q rest
  end.

(** [repr(s)] for a [str] *)
Definition repr_str (s : string) : string :=
  let q := if Text.contains_char Text.squote s
              && negb (Text.contains_char Text.dquote s)
           then Text.dquote else Text.squote in
  String q (repr_chars q (Unicode.chars s) ++ Text.str1 q).

(** [repr(v)] *)
Fixpoint repr (v : json) : string :=
  match v with
  | JNull => "None"
  | JBool b => if b then "True" else "False"
  | JInt n => Text.of_Z n
  | JFloat x => PyFloat.repr x
  | JStr s => repr_str s
  | JArr items =>
      "[" ++ Text.join ", " ((fix go (l : list json) : list string :=
                                match l with
                                | [] => []
                                | x :: l' => repr x :: go l'
                                end) items) ++ "]"
  | JObj members =>
      "{" ++ Text.join ", "
               ((fix go (l : list (string * json)) : list string :=
                   match l with
                   | [] => []
                   | (k, x) :: l' => (repr_str k ++ ": " ++ repr x) :: go l'
                   end) members) ++ "}"
  end.

(** [str(v)], which is also what an f-string field [{v}] shows. *)
Definition str (v : json) : string :=
  match v with
  | JStr s => s
  | _ => repr v
  end.

Definition is_None (v : json) : bool :=
  match v with JNull => true | _ => false end.

(** [v == s] for a string literal [s] *)
Definition eq_str (v : json) (s : string) : bool :=
  match v with JStr t => String.eqb t s | _ => false end.

Fixpoint lookup (key : string) (members : list (string * json)) : option json :=
  match members with
  | [] => None
  | (k, x) :: rest => if String.eqb k key then Some x else lookup key rest
  end.

(** [d.get(key, default)] for a [dict] *)
Definition field (members : list (string * json)) (key : string)
    (default : json) : json :=
  match lookup key members with
  | Some x => x
  | None => default
  end.

(** [v.get(key, default)] *)
Definition get (v : json) (key : string) (default : json) : result json :=
  match v with
  | JObj members => Return (field members key default)
  | _ => Raise (Exn AttributeError
                  ("'" ++ type_name v ++ "' object has no attribute 'get'"))
  end.

(** [float(v)] *)
Definition to_float (v : json) : result PyFloat.float :=
  match v with
  | JFloat x => Return x
  | JInt n =>
      match PyFloat.of_Z n with
      | Some x => Return x
      | None => Raise (Exn OverflowError "int too large to convert to float")
      end
  | JBool b => Return (PyFloat.of_decimal false (if b then 1 else 0) 0)
  | JStr s =>
      match FloatParse.of_string s with
      | Some x => Return x
      | None => Raise (Exn ValueError
                         ("could not convert string to float: " ++ repr_str s))
      end
  | _ => Raise (Exn TypeError
                  ("float() argument must be a string or a real number, not '"
                     ++ type_name v ++ "'"))
  end.

(** The items a [for] loop over [v] visits; [TypeError] when [v] is not
    iterable. *)
Definition iter (v : json) : result (list json) :=
  match v with
  | JArr items => Return items
  | JObj members => Return (map (fun kv => JStr (fst kv)) members)
  | JStr s => Return (map JStr (Unicode.chars s))
  | _ => Raise (Exn TypeError
                  ("'" ++ type_name v ++ "' object is not iterable"))
  end.

(** [len(v)] *)
Definition len (v : json) : result nat :=
  match v with
  | JArr items => Return (List.length items)
  | JObj members => Return (List.length members)
  | JStr s => Return (List.length (Unicode.chars s))
  | _ => Raise (Exn TypeError
                  ("object of type '" ++ type_name v ++ "' has no len()"))
  end.

End Py.

(** ** Effects: what a run prints, executes and writes

    A run is described by the events it produces, in order.  What a command
    started by [os.system] prints on its own goes to the terminal beside the
    program's lines and is not an event of the program. *)

Inductive event : Type :=
| Print (text : string)                  (* print(text) *)
| System (command : string)              (* os.system(command) *)
| WriteFile (path content : string)      (* open(path, 'w').write(content) *)
| PartialWrite (path reached : string).  (* the same, [write] or [close]
                                            failing after [open]: the file
                                            is made or emptied and holds
                                            what reached it *)

(** A computation: the events it produced, then what it returned or raised. *)
Definition Run (A : Type) : Type := (list event * result A)%type.

Definition ret {A} (a : A) : Run A := ([], Return a).

Definition raise {A} (e : exn) : Run A := ([], Raise e).

Definition lift {A} (r : result A) : Run A := ([], r).

Definition emit (ev : event) : Run unit := ([ev], Return tt).

Definition print (text : string) : Run unit := emit (Print text).

Definition bind {A B} (m : Run A) (k : A -> Run B) : Run B :=
  match m with
  | (out, Return a) => let '(out', r) := k a in ((out ++ out')%list, r)
  | (out, Raise e) => (out, Raise e)
  end.

(** [try: m  except Exception as e: handler e] *)
Definition try_except {A} (m : Run A) (handler : exn -> Run A) : Run A :=
  match m with
  | (out, Raise e) => let '(out', r) := handler e in ((out ++ out')%list, r)
  | _ => m
  end.

Declare Scope run_scope.
Delimit Scope run_scope with run.
Notation "x <- m ;; k" := (bind m (fun x => k))
  (at level 61, m at next level, right associativity) : run_scope.
Notation "m ;; k" := (bind m (fun _ => k))
  (at level 61, right associativity) : run_scope.
Local Open Scope run_scope.

Definition events {A} (r : Run A) : list event := fst r.
Definition outcome {A} (r : Run A) : result A := snd r.

(** The text last written in full to [path], if any. *)
Fixpoint written (path : string) (evs : list event) : option string :=
  match evs with
  | [] => None
  | ev :: rest =>
      match written path rest with
      | Some c => Some c
      | None =>
          match ev with
          | WriteFile p c => if String.eqb p path then Some c else None
          | _ => None
          end
      end
  end.

(** What a run has done to a file. *)
Inductive file_state : Type :=
| Untouched
| Complete (text : string)
| Partial (text : string).

(** The state the events leave [path] in. *)
Fixpoint file_after (path : string) (evs : list event) : file_state :=
  match evs with
  | [] => Untouched
  | ev :: rest =>
      match file_after path rest with
      | Untouched =>
          match ev with
          | WriteFile p c => if String.eqb p path then Complete c else Untouched
          | PartialWrite p c => if String.eqb p path then Partial c else Untouched
          | _ => Untouched
          end
      | state => state
      end
  end.

(** ** The script *)

Module Script.

(** How [with open(path, 'w') as f: f.write(content)] can fail. *)
Inductive write_failure : Type :=
| OpenFailed (err : exn)
    (* [open] raises: the file is as it was *)
| WriteFailed (err : exn) (reached : nat).
    (* [open] has made or emptied the file, then [write] or [close] raises
       with the first [reached] bytes of the content in the file *)

Definition failure_exn (f : write_failure) : exn :=
  match f with
  | OpenFailed err => err
  | WriteFailed err _ => err
  end.

(** What the run finds outside the program. *)
Record env : Type := {
  json_file : string;            (* str(json_file) *)
  sql_file : string;             (* str(sql_file) *)
  json_file_exists : bool;       (* json_file.exists() *)
  mkdir_error : option exn;      (* sql_file.parent.mkdir(...) *)
  load_result : result json;     (* open(json_file) and json.load(f) *)
  date_status : Z;               (* the status os.system("date") returns *)
  write_error : option write_failure
                                 (* open(sql_file, 'w') and f.write(...) *)
}.

(** [clean_value(value)]; [None] is Python's [None]. *)
Definition clean_value (value : json) : option string :=
  if Py.is_None value || Py.eq_str value "NULL" || Py.eq_str value EmptyString
  then None
  else Some (Text.replace "'" "''" (Py.str value)).

Definition major_cities : list string :=
  [ "Colombo"; "Kandy"; "Galle"; "Negombo"; "Jaffna"; "Trincomalee";
    "Batticaloa"; "Ratnapura"; "Anuradhapura"; "Polonnaruwa"; "Matara";
    "Hambantota"; "Kurunegala"; "Puttalam"; "Badulla"; "Bandarawela";
    "Nuwara Eliya"; "Dambulla"; "Sigiriya"; "Vavuniya"; "Mannar" ].

(** [x in s] for a set of strings *)
Definition in_set (x : string) (s : list string) : bool :=
  existsb (String.eqb x) s.

(** [{name_en}] in an f-string, [name_en] being a [str] or [None] *)
Definition show_name (name_en : option string) : string :=
  match name_en with
  | Some s => s
  | None => "None"
  end.

(** [{population or 'NULL'}] *)
Definition show_population (population : option Z) : string :=
  match population with
  | Some n => if n =? 0 then "NULL" else Text.of_Z n
  | None => "NULL"
  end.

(** [str(b)] *)
Definition show_bool (b : bool) : string := if b then "True" else "False".

(** The literals [5.5], [10.0], [79.0] and [82.0]. *)
Definition float_5_5 : PyFloat.float := PyFloat.of_decimal false 55 (-1).
Definition float_10_0 : PyFloat.float := PyFloat.of_decimal false 10 0.
Definition float_79_0 : PyFloat.float := PyFloat.of_decimal false 79 0.
Definition float_82_0 : PyFloat.float := PyFloat.of_decimal false 82 0.

(** [latitude == 0] *)
Definition is_zero (x : PyFloat.float) : bool := PyFloat.eqb x PyFloat.pos_zero.

(** [5.5 <= latitude <= 10.0 and 79.0 <= longitude <= 82.0] *)
Definition in_bounds (latitude longitude : PyFloat.float) : bool :=
  PyFloat.leb float_5_5 latitude && PyFloat.leb latitude float_10_0
  && (PyFloat.leb float_79_0 longitude && PyFloat.leb longitude float_82_0).

(** [name_en in major_cities if name_en else False] *)
Definition is_major_city (name_en : option string) : bool :=
  match name_en with
  | Some s => if Text.is_empty s then false else in_set s major_cities
  | None => false
  end.

(** Lines 81-88: the SQL value tuple of an accepted record. *)
Definition sql_value (name_en : option string)
    (latitude longitude : PyFloat.float) : string :=
  let is_major := is_major_city name_en in
  let population := if is_major then Some 100000 else None in
  "('" ++ show_name name_en ++ "', 'Sri Lanka', 'Sri Lanka', "
    ++ PyFloat.repr latitude ++ ", " ++ PyFloat.repr longitude ++ ", "
    ++ show_population population ++ ", "
    ++ Text.lower (show_bool is_major) ++ ", 'Asia/Colombo')".

(** The body of the [try] block (lines 67-89): [Some value] when a value is
    appended, [None] when the record is left by [continue]. *)
Definition process_city (city : json) : Run (option string) :=
  name_raw <- lift (Py.get city "name_en" JNull) ;;
  let name_en := clean_value name_raw in
  lat_raw <- lift (Py.get city "latitude" (JInt 0)) ;;
  latitude <- lift (Py.to_float lat_raw) ;;
  lon_raw <- lift (Py.get city "longitude" (JInt 0)) ;;
  longitude <- lift (Py.to_float lon_raw) ;;
  if is_zero latitude || is_zero longitude then
    print ("Skipping " ++ show_name name_en ++ " - invalid coordinates") ;;
    ret None
  else
    (if negb (in_bounds latitude longitude) then
       print ("Warning: " ++ show_name name_en ++ " coordinates ("
                ++ PyFloat.repr latitude ++ ", " ++ PyFloat.repr longitude
                ++ ") outside Sri Lanka bounds")
     else ret tt) ;;
    ret (Some (sql_value name_en latitude longitude)).

(** The [except Exception as e] block (lines 91-93). *)
Definition report_error (city : json) (e : exn) : Run (option string) :=
  id <- lift (Py.get city "id" (JStr "unknown")) ;;
  print ("Error processing city " ++ Py.str id ++ ": " ++ exn_message e) ;;
  ret None.

(** The [for] loop (lines 65-93) over the remaining records, [values]
    being the list built so far. *)
Fixpoint process_cities (cities : list json) (values : list string)
  : Run (list string) :=
  match cities with
  | [] => ret values
  | city :: rest =>
      r <- try_except (process_city city) (report_error city) ;;
      process_cities rest
        (match r with
         | Some value => (values ++ [value])%list
         | None => values
         end)
  end.

Fixpoint unlines (ls : list string) : string :=
  match ls with
  | [] => EmptyString
  | l :: rest => l ++ Text.nl ++ unlines rest
  end.

(** Lines 33-55: the header template filled in by [str.format]. *)
Definition sql_header (total_cities : nat) (timestamp : Z) : string :=
  unlines
    [ "-- Migration: Import Complete Sri Lankan Cities Dataset";
      "-- Source: https://github.com/SKIDDOW/SriLankaCitiesDatabase";
      "-- Total Cities: " ++ Text.of_nat total_cities;
      "-- Generated: " ++ Text.of_Z timestamp;
      EmptyString;
      "-- Delete existing Sri Lankan cities to avoid duplicates";
      "DELETE FROM cities WHERE country = 'Sri Lanka';";
      EmptyString;
      "-- Insert complete Sri Lankan cities dataset";
      "INSERT INTO cities (";
      "    name,";
      "    country,";
      "    state,";
      "    latitude,";
      "    longitude,";
      "    population,";
      "    is_major_city,";
      "    timezone";
      ") VALUES" ].

(** Lines 97-102. *)
Definition on_conflict_clause : string :=
  Text.nl ++
  unlines
    [ "ON CONFLICT (name, country) DO UPDATE SET";
      "    latitude = EXCLUDED.latitude,";
      "    longitude = EXCLUDED.longitude,";
      "    state = EXCLUDED.state,";
      "    population = EXCLUDED.population,";
      "    is_major_city = EXCLUDED.is_major_city;";
      EmptyString ].

(** Lines 105-131. *)
Definition verification_queries : string :=
  unlines
    [ "-- Verify import";
      "SELECT";
      "    COUNT(*) as total_cities,";
      "    COUNT(CASE WHEN is_major_city THEN 1 END) as major_cities,";
      "    MIN(latitude) as min_lat,";
      "    MAX(latitude) as max_lat,";
      "    MIN(longitude) as min_lng,";
      "    MAX(longitude) as max_lng";
      "FROM cities";
      "WHERE country = 'Sri Lanka';";
      EmptyString;
      "-- Sample query: Find cities near Colombo (within 50km)";
      "SELECT name, latitude, longitude,";
      "    ROUND(ST_Distance(";
      "        geom,";
      "        ST_SetSRID(ST_MakePoint(79.8612, 6.9271), 4326)::geography";
      "    ) / 1000, 2) as distance_km";
      "FROM cities";
      "WHERE country = 'Sri Lanka'";
      "    AND ST_DWithin(";
      "        geom,";
      "        ST_SetSRID(ST_MakePoint(79.8612, 6.9271), 4326)::geography,";
      "        50000";
      "    )";
      "ORDER BY distance_km";
      "LIMIT 10;" ].

(** Lines 96-131: the text assembled from the header and the values. *)
Definition sql_text (header : string) (values : list string) : string :=
  header ++ Text.join ("," ++ Text.nl) values
    ++ on_conflict_clause ++ verification_queries.

(** [os.system(command)]: the command runs, its status is returned. *)
Definition os_system (e : env) (command : string) : Run Z :=
  emit (System command) ;; ret (date_status e).

(** [with open(path, 'w') as f: f.write(content)] *)
Definition write_file (e : env) (path content : string) : Run unit :=
  match write_error e with
  | None => emit (WriteFile path content)
  | Some (OpenFailed err) => raise err
  | Some (WriteFailed err reached) =>
      emit (PartialWrite path (String.substring 0 reached content)) ;;
      raise err
  end.

(** [generate_sql_migration(json_file_path, output_file_path)] *)
Definition generate_sql_migration (e : env) : Run bool :=
  print ("Reading JSON data from: " ++ json_file e) ;;
  match load_result e with
  | Raise err =>
      print ("Error reading JSON file: " ++ exn_message err) ;;
      ret false
  | Return cities_data =>
      n <- lift (Py.len cities_data) ;;
      print ("Loaded " ++ Text.of_nat n ++ " cities") ;;
      total_cities <- lift (Py.len cities_data) ;;
      timestamp <- os_system e "date" ;;
      let sql_content := sql_header total_cities timestamp in
      cities <- lift (Py.iter cities_data) ;;
      values <- process_cities cities [] ;;
      let sql_content := sql_text sql_content values in
      try_except
        (write_file e (sql_file e) sql_content ;;
         print ("SQL migration generated: " ++ sql_file e) ;;
         print ("Successfully processed "
                  ++ Text.of_nat (List.length values) ++ " cities") ;;
         ret true)
        (fun err =>
           print ("Error writing SQL file: " ++ exn_message err) ;;
           ret false)
  end.

(** [main()] *)
Definition main (e : env) : Run Z :=
  if negb (json_file_exists e) then
    print ("JSON file not found: " ++ json_file e) ;;
    ret 1
  else
    match mkdir_error e with Some err => raise err | None => ret tt end ;;
    success <- generate_sql_migration e ;;
    if (success : bool) then
      print (Text.nl ++ Text.of_bytes [195; 162; 197; 147; 226; 128; 166]%nat
               ++ " Sri Lankan cities migration generated successfully!") ;;
      print (Text.of_bytes [195; 176; 197; 184; 226; 128; 156]%nat
               ++ " Migration file: " ++ sql_file e) ;;
      print (Text.nl ++ "Next steps:") ;;
      print "1. Review the generated SQL file" ;;
      print "2. Apply the migration to your database" ;;
      print "3. Verify the import with the included queries" ;;
      ret 0
    else
      print (Text.nl ++ Text.of_bytes [195; 162; 197; 146]%nat
               ++ " Failed to generate migration") ;;
      ret 1.

(** [sys.exit(main())]: the status of the process; an exception nobody
    catches ends it with status 1. *)
Definition exit_status (e : env) : Z :=
  match outcome (main e) with
  | Return code => code
  | Raise _ => 1
  end.

(** The migration file the run has written in full, if it has. *)
Definition migration_written (e : env) : option string :=
  written (sql_file e) (events (main e)).

(** What the run has done to the destination. *)
Definition destination_after (e : env) : file_state :=
  file_after (sql_file e) (events (main e)).

End Script.

(** ** Vocabulary of the properties *)

Module Props.

Import Script.

Definition is_object (v : json) : bool :=
  match v with JObj _ => true | _ => false end.

(** The coordinates of a record whose fields are well formed: an object
    whose [latitude] and [longitude], 0 when absent, convert to float. *)
Definition coordinates (city : json) : option (PyFloat.float * PyFloat.float) :=
  match city with
  | JObj members =>
      match Py.to_float (Py.field members "latitude" (JInt 0)),
            Py.to_float (Py.field members "longitude" (JInt 0)) with
      | Return latitude, Return longitude => Some (latitude, longitude)
      | _, _ => None
      end
  | _ => None
  end.

(** A record with well-formed, nonzero coordinates. *)
Definition accepted (city : json) : bool :=
  match coordinates city with
  | Some (latitude, longitude) =>
      negb (is_zero latitude) && negb (is_zero longitude)
  | None => false
  end.

(** The cleaned name of a record. *)
Definition name_of (city : json) : option string :=
  match city with
  | JObj members => clean_value (Py.field members "name_en" JNull)
  | _ => None
  end.

(** The SQL tuple of a record with well-formed coordinates. *)
Definition tuple_of (city : json) : string :=
  match coordinates city with
  | Some (latitude, longitude) => sql_value (name_of city) latitude longitude
  | None => EmptyString
  end.

(** Every single-quote character doubled. *)
Fixpoint double_quotes (s : string) : string :=
  match s with
  | EmptyString => EmptyString
  | String c s' =>
      if Ascii.eqb c Text.squote
      then String Text.squote (String Text.squote (double_quotes s'))
      else String c (double_quotes s')
  end.


(** The diagnostics of lines 74 and 79. *)
Definition skip_message (name_en : option string) : string :=
  "Skipping " ++ show_name name_en ++ " - invalid coordinates".

Definition warning_message (name_en : option string)
    (latitude longitude : PyFloat.float) : string :=
  "Warning: " ++ show_name name_en ++ " coordinates ("
    ++ PyFloat.repr latitude ++ ", " ++ PyFloat.repr longitude
    ++ ") outside Sri Lanka bounds".

(** No name occurs twice. *)
Fixpoint distinct (names : list string) : bool :=
  match names with
  | [] => true
  | x :: rest => negb (in_set x rest) && distinct rest
  end.

Definition is_print (ev : event) : bool :=
  match ev with Print _ => true | _ => false end.

(** The header on either side of its timestamp field. *)
Definition header_before_timestamp (total_cities : nat) : string :=
  "-- Migration: Import Complete Sri Lankan Cities Dataset" ++ Text.nl
    ++ "-- Source: https://github.com/SKIDDOW/SriLankaCitiesDatabase" ++ Text.nl
    ++ "-- Total Cities: " ++ Text.of_nat total_cities ++ Text.nl
    ++ "-- Generated: ".

Definition header_below_timestamp : string :=
  unlines
    [ EmptyString;
      "-- Delete existing Sri Lankan cities to avoid duplicates";
      "DELETE FROM cities WHERE country = 'Sri Lanka';";
      EmptyString;
      "-- Insert complete Sri Lankan cities dataset";
      "INSERT INTO cities (";
      "    name,";
      "    country,";
      "    state,";
      "    latitude,";
      "    longitude,";
      "    population,";
      "    is_major_city,";
      "    timezone";
      ") VALUES" ].

Definition header_after_timestamp : string :=
  Text.nl ++ header_below_timestamp.

(** Sample data. *)
Definition lat_colombo : PyFloat.float := PyFloat.of_decimal false 69271 (-4).
Definition lon_colombo : PyFloat.float := PyFloat.of_decimal false 798612 (-4).

Definition colombo : json :=
  JObj [("id", JInt 1); ("name_en", JStr "Colombo");
        ("latitude", JFloat lat_colombo); ("longitude", JFloat lon_colombo)].

Definition nowhere : json :=
  JObj [("name_en", JStr "Nowhere"); ("latitude", JInt 0); ("longitude", JInt 0)].


Definition unnamed : json :=
  JObj [("name_en", JNull); ("latitude", JFloat lat_colombo);
        ("longitude", JFloat lon_colombo)].


Definition bad_latitude : json :=
  JObj [("id", JInt 7); ("name_en", JStr "Kandy"); ("latitude", JStr "abc");
        ("longitude", JInt 80)].

Definition sample_env (data : json) (status : Z) : env :=
  {| json_file := "sri_lanka_cities.json";
     sql_file := "database/migrations/003_import_sri_lankan_cities.sql";
     json_file_exists := true;
     mkdir_error := None;
     load_result := Return data;
     date_status := status;
     write_error := None |}.




(** [None], a [bool] or a number: a value without a length. *)
Definition is_scalar (v : json) : bool :=
  match v with
  | JNull | JBool _ | JInt _ | JFloat _ => true
  | _ => false
  end.

Definition is_system (ev : event) : bool :=
  match ev with System _ => true | _ => false end.

End Props.

(** * Properties *)

Import Script Props.

(** ** The built-ins on sample values *)

Example repr_shortest :
  map PyFloat.repr
    [ lat_colombo; lon_colombo;
      PyFloat.of_decimal false 1 (-1);       (* 0.1 *)
      PyFloat.of_decimal false 80 0;         (* 80.0 *)
      PyFloat.of_decimal true 125 (-3);      (* -0.125 *)
      PyFloat.of_decimal false 1 16;         (* 1e16 *)
      PyFloat.of_decimal false 1 (-5);       (* 0.00001 *)
      PyFloat.of_decimal false 1 (-4);       (* 0.0001 *)
      PyFloat.of_decimal false 5 (-324);     (* the least positive float *)
      S754_zero true; S754_infinity false; S754_nan ]
  = [ "6.9271"; "79.8612"; "0.1"; "80.0"; "-0.125"; "1e+16"; "1e-05";
      "0.0001"; "5e-324"; "-0.0"; "inf"; "nan" ].
Proof. vm_compute. reflexivity. Qed.

Example float_of_text :
  map FloatParse.of_string
    [ "6.9271"; " 79.8612 "; "1_000.5"; "-Infinity"; ".5"; "1e3" ]
  = [ Some lat_colombo; Some lon_colombo;
      Some (PyFloat.of_decimal false 10005 (-1));
      Some (S754_infinity true);
      Some (PyFloat.of_decimal false 5 (-1));
      Some (PyFloat.of_decimal false 1000 0) ]
  /\ map FloatParse.of_string
       [ "abc"; EmptyString; "."; "1e"; "1__0"; "0x10"; "6,9"; "1 2" ]
     = [ None; None; None; None; None; None; None; None ].
Proof. vm_compute. split; reflexivity. Qed.

Example float_of_values :
  Py.to_float (JInt 80) = Return (PyFloat.of_decimal false 80 0)
  /\ Py.to_float (JBool true) = Return (PyFloat.of_decimal false 1 0)
  /\ Py.to_float (JInt (10 ^ 400))
     = Raise (Exn OverflowError "int too large to convert to float")
  /\ Py.to_float (JStr "abc")
     = Raise (Exn ValueError "could not convert string to float: 'abc'")
  /\ Py.to_float JNull
     = Raise (Exn TypeError
                "float() argument must be a string or a real number, not 'NoneType'").
Proof. vm_compute. repeat split; reflexivity. Qed.

Example repr_of_values :
  Py.str (JArr [ JInt 1; JStr "a"; JNull; JBool true;
                 JObj [("k", JInt (-5)); ("l", JArr [])] ])
  = "[1, 'a', None, True, {'k': -5, 'l': []}]"
  /\ Py.repr_str "O'Brien" = String Text.dquote ("O'Brien" ++ Text.str1 Text.dquote).
Proof. vm_compute. split; reflexivity. Qed.

(** Text beyond ASCII: U+0663 is a digit three, U+00A0 a space that [float]
    strips and [repr] escapes; the byte 28 is not stripped. *)
Example float_of_unicode_text :
  FloatParse.of_string (Text.of_bytes [217; 163]%nat)
  = Some (PyFloat.of_decimal false 3 0)
  /\ FloatParse.of_string (Text.of_bytes [194; 160; 55; 46; 53]%nat)
     = Some (PyFloat.of_decimal false 75 (-1))
  /\ FloatParse.of_string (Text.of_bytes [28; 55; 46; 53]%nat) = None
  /\ FloatParse.of_string (Text.of_bytes [55; 195; 169]%nat) = None.
Proof. vm_compute. repeat split; reflexivity. Qed.

Example repr_of_unicode_text :
  Py.repr_str (Text.of_bytes [194; 160]%nat)
  = "'" ++ String Text.backslash "xa0'"
  /\ Py.repr_str (Text.of_bytes [226; 128; 139]%nat)
     = "'" ++ String Text.backslash "u200b'"
  /\ Py.repr_str (Text.of_bytes [99; 97; 102; 195; 169]%nat)
     = "'" ++ Text.of_bytes [99; 97; 102; 195; 169]%nat ++ "'"
  /\ Py.to_float (JStr (Text.of_bytes [194; 160; 120]%nat))
     = Raise (Exn ValueError
                ("could not convert string to float: '"
                   ++ String Text.backslash "xa0x'")).
Proof. vm_compute. repeat split; reflexivity. Qed.

(** The end-to-end examples of the specification. *)
Example colombo_row :
  process_cities [colombo] []
  = ([], Return ["('Colombo', 'Sri Lanka', 'Sri Lanka', 6.9271, 79.8612, 100000, true, 'Asia/Colombo')"]).
Proof. vm_compute. reflexivity. Qed.

Example nowhere_skipped :
  process_cities [nowhere] []
  = ([Print "Skipping Nowhere - invalid coordinates"], Return []).
Proof. vm_compute. reflexivity. Qed.

Example bad_latitude_skipped :
  process_cities [bad_latitude; colombo] []
  = ([Print "Error processing city 7: could not convert string to float: 'abc'"],
     Return ["('Colombo', 'Sri Lanka', 'Sri Lanka', 6.9271, 79.8612, 100000, true, 'Asia/Colombo')"]).
Proof. vm_compute. reflexivity. Qed.

(** ** The monad *)

Lemma bind_lift_return {A B} (a : A) (k : A -> Run B) :
  bind (lift (Return a)) k = k a.
Proof. unfold bind, lift. destruct (k a); reflexivity. Qed.

(** ** One record *)

(** What the [try] block does on an object, by cases on its coordinates. *)
Lemma process_city_object (members : list (string * json)) :
  process_city (JObj members) =
  let name_en := clean_value (Py.field members "name_en" JNull) in
  match Py.to_float (Py.field members "latitude" (JInt 0)) with
  | Raise e => ([], Raise e)
  | Return latitude =>
      match Py.to_float (Py.field members "longitude" (JInt 0)) with
      | Raise e => ([], Raise e)
      | Return longitude =>
          if is_zero latitude || is_zero longitude
          then ([Print (skip_message name_en)], Return None)
          else (if in_bounds latitude longitude then []
                else [Print (warning_message name_en latitude longitude)],
                Return (Some (sql_value name_en latitude longitude)))
      end
  end.
Proof.
  unfold process_city, Py.get.
  rewrite !bind_lift_return.
  destruct (Py.to_float (Py.field members "latitude" (JInt 0))) as [lat | e];
    [rewrite bind_lift_return | reflexivity].
  rewrite bind_lift_return.
  destruct (Py.to_float (Py.field members "longitude" (JInt 0))) as [lon | e];
    [rewrite bind_lift_return | reflexivity].
  cbv zeta.
  destruct (is_zero lat || is_zero lon); [reflexivity |].
  destruct (in_bounds lat lon); reflexivity.
Qed.


(** Outside an object the very first [city.get] fails. *)
Lemma process_city_non_object (city : json) :
  is_object city = false ->
  process_city city =
  ([], Raise (Exn AttributeError
                ("'" ++ Py.type_name city ++ "' object has no attribute 'get'"))).
Proof. destruct city; intros H; try discriminate H; reflexivity. Qed.

(** ... and so does the [city.get] of the handler. *)
Lemma report_error_non_object (city : json) (e : exn) :
  is_object city = false ->
  report_error city e =
  ([], Raise (Exn AttributeError
                ("'" ++ Py.type_name city ++ "' object has no attribute 'get'"))).
Proof. destruct city; intros H; try discriminate H; reflexivity. Qed.

Lemma report_error_object (members : list (string * json)) (e : exn) :
  report_error (JObj members) e =
  ([Print ("Error processing city "
             ++ Py.str (Py.field members "id" (JStr "unknown")) ++ ": "
             ++ exn_message e)],
   Return None).
Proof. reflexivity. Qed.

(** Only an accepted record gets through the [try] block with a value. *)
Lemma process_city_value (city : json) (out : list event) (value : string) :
  process_city city = (out, Return (Some value)) ->
  exists members latitude longitude,
    city = JObj members
    /\ coordinates city = Some (latitude, longitude)
    /\ is_zero latitude = false /\ is_zero longitude = false
    /\ value = sql_value (name_of city) latitude longitude
    /\ out = if in_bounds latitude longitude then []
             else [Print (warning_message (name_of city) latitude longitude)].
Proof.
  intros H.
  destruct (is_object city) eqn:Hobj.
  - destruct city as [ | | | | | | members]; try discriminate Hobj.
    rewrite process_city_object in H. cbv zeta in H.
    unfold coordinates, name_of.
    destruct (Py.to_float (Py.field members "latitude" (JInt 0)))
      as [lat | e]; [| discriminate H].
    destruct (Py.to_float (Py.field members "longitude" (JInt 0)))
      as [lon | e]; [| discriminate H].
    destruct (is_zero lat || is_zero lon) eqn:Hz; [discriminate H |].
    apply orb_false_elim in Hz. destruct Hz as [Hz1 Hz2].
    injection H as Hout Hval.
    exists members, lat, lon. repeat split; auto.
  - rewrite (process_city_non_object city Hobj) in H. discriminate H.
Qed.



Lemma bind_return {A B} (out : list event) (a : A) (k : A -> Run B) :
  bind (out, Return a) k = ((out ++ events (k a))%list, outcome (k a)).
Proof. unfold bind, events, outcome. destruct (k a); reflexivity. Qed.

(** The [try] statement on an object never raises: the record is accepted
    with its tuple, or left with nothing but diagnostics. *)
Lemma guarded_object (members : list (string * json)) :
  let city := JObj members in
  exists out,
    try_except (process_city city) (report_error city)
    = (out, Return (if accepted city then Some (tuple_of city) else None))
    /\ forallb is_print out = true.
Proof.
  intros city. subst city.
  rewrite process_city_object. cbv zeta.
  unfold accepted, tuple_of, coordinates, name_of.
  destruct (Py.to_float (Py.field members "latitude" (JInt 0))) as [lat | e].
  - destruct (Py.to_float (Py.field members "longitude" (JInt 0)))
      as [lon | e].
    + destruct (is_zero lat) eqn:Hlat; simpl.
      * eexists; split; reflexivity.
      * destruct (is_zero lon) eqn:Hlon; simpl.
        -- eexists; split; reflexivity.
        -- destruct (in_bounds lat lon); eexists; split; reflexivity.
    + unfold try_except. rewrite report_error_object.
      eexists; split; reflexivity.
  - unfold try_except. rewrite report_error_object.
    eexists; split; reflexivity.
Qed.

(** On anything else the handler raises in its turn, and nothing catches
    that. *)
Lemma guarded_non_object (city : json) :
  is_object city = false ->
  try_except (process_city city) (report_error city)
  = ([], Raise (Exn AttributeError
                  ("'" ++ Py.type_name city ++ "' object has no attribute 'get'"))).
Proof.
  intros H. rewrite (process_city_non_object city H).
  unfold try_except. rewrite (report_error_non_object city _ H). reflexivity.
Qed.

(** ** The loop *)

Lemma forallb_is_print_app (l1 l2 : list event) :
  forallb is_print l1 = true -> forallb is_print l2 = true ->
  forallb is_print (l1 ++ l2) = true.
Proof. intros H1 H2. rewrite forallb_app, H1, H2. reflexivity. Qed.

(** The loop prints and does nothing else; it returns exactly when every
    record is an object, and then with the tuples of the accepted records
    appended in order. *)
Lemma process_cities_spec (cities : list json) :
  forall values,
    forallb is_print (events (process_cities cities values)) = true
    /\ match outcome (process_cities cities values) with
       | Return vs =>
           forallb is_object cities = true
           /\ vs = (values ++ map tuple_of (filter accepted cities))%list
       | Raise _ => forallb is_object cities = false
       end.
Proof.
  induction cities as [| city rest IH]; intros values.
  - simpl. rewrite app_nil_r. auto.
  - cbn [process_cities].
    destruct (is_object city) eqn:Hobj.
    + destruct city as [ | | | | | | members]; try discriminate Hobj.
      destruct (guarded_object members) as (out & Hg & Hout).
      cbv zeta in Hg. rewrite Hg, bind_return.
      cbn [events outcome fst snd forallb is_object andb filter].
      destruct (accepted (JObj members)).
      * destruct (IH (values ++ [tuple_of (JObj members)])%list) as [Hp Ho].
        split; [apply forallb_is_print_app; assumption |].
        destruct (outcome (process_cities rest
                             (values ++ [tuple_of (JObj members)])%list));
          [| exact Ho].
        destruct Ho as [Hall Hvs]. split; [exact Hall |].
        rewrite Hvs, <- app_assoc. reflexivity.
      * destruct (IH values) as [Hp Ho].
        split; [apply forallb_is_print_app; assumption |].
        exact Ho.
    + rewrite (guarded_non_object city Hobj).
      cbn [bind events outcome fst snd forallb]. rewrite Hobj. auto.
Qed.

Lemma process_cities_objects (cities : list json) (values : list string) :
  forallb is_object cities = true ->
  outcome (process_cities cities values)
  = Return (values ++ map tuple_of (filter accepted cities))%list.
Proof.
  intros Hall. destruct (process_cities_spec cities values) as [_ H].
  destruct (outcome (process_cities cities values)) as [vs | e].
  - destruct H as [_ ->]. reflexivity.
  - congruence.
Qed.

Lemma process_cities_returns (cities : list json) (values vs : list string) :
  outcome (process_cities cities values) = Return vs ->
  forallb is_object cities = true
  /\ vs = (values ++ map tuple_of (filter accepted cities))%list.
Proof.
  intros Hr. destruct (process_cities_spec cities values) as [_ H].
  rewrite Hr in H. exact H.
Qed.

Lemma written_app (path : string) (l1 l2 : list event) :
  written path (l1 ++ l2) =
  match written path l2 with
  | Some c => Some c
  | None => written path l1
  end.
Proof.
  induction l1 as [| ev l1 IH]; simpl.
  - destruct (written path l2); reflexivity.
  - rewrite IH. destruct (written path l2); reflexivity.
Qed.

Lemma written_prints (path : string) (l : list event) :
  forallb is_print l = true -> written path l = None.
Proof.
  induction l as [| ev l IH]; simpl; [reflexivity |].
  intros H. apply andb_prop in H. destruct H as [Hev Hl].
  rewrite (IH Hl). destruct ev; [reflexivity | discriminate ..].
Qed.

(** ** The whole run *)

(** What [generate_sql_migration] does once the file is loaded and its
    content can be counted and iterated. *)
Lemma generate_loaded (e : env) (data : json) (n : nat) (cities : list json) :
  load_result e = Return data ->
  Py.len data = Return n ->
  Py.iter data = Return cities ->
  generate_sql_migration e =
  let loop := process_cities cities [] in
  let start := [ Print ("Reading JSON data from: " ++ json_file e);
                 Print ("Loaded " ++ Text.of_nat n ++ " cities");
                 System "date" ] in
  match outcome loop with
  | Raise ex => ((start ++ events loop)%list, Raise ex)
  | Return values =>
      let sql_content := sql_text (sql_header n (date_status e)) values in
      match write_error e with
      | None =>
          ((start ++ events loop
              ++ [ WriteFile (sql_file e) sql_content;
                   Print ("SQL migration generated: " ++ sql_file e);
                   Print ("Successfully processed "
                            ++ Text.of_nat (List.length values) ++ " cities") ])%list,
           Return true)
      | Some failure =>
          ((start ++ events loop
              ++ match failure with
                 | OpenFailed _ => []
                 | WriteFailed _ reached =>
                     [ PartialWrite (sql_file e)
                         (String.substring 0 reached sql_content) ]
                 end
              ++ [ Print ("Error writing SQL file: "
                            ++ exn_message (failure_exn failure)) ])%list,
           Return false)
      end
  end.
Proof.
  intros Hload Hlen Hiter. unfold generate_sql_migration.
  rewrite Hload, Hlen, Hiter.
  cbv [os_system write_file bind lift print emit ret raise
         try_except events outcome fst snd].
  destruct (process_cities cities []) as [out [values | ex]];
    destruct (write_error e) as [[err | err reached] |];
    cbn [app failure_exn]; rewrite ?app_nil_r; reflexivity.
Qed.

(** A loaded value without a length stops the run before anything else. *)
Lemma generate_no_len (e : env) (data : json) (ex : exn) :
  load_result e = Return data ->
  Py.len data = Raise ex ->
  generate_sql_migration e
  = ([Print ("Reading JSON data from: " ++ json_file e)], Raise ex).
Proof.
  intros Hload Hlen. unfold generate_sql_migration.
  rewrite Hload, Hlen. reflexivity.
Qed.

Lemma generate_unreadable (e : env) (err : exn) :
  load_result e = Raise err ->
  generate_sql_migration e
  = ([ Print ("Reading JSON data from: " ++ json_file e);
       Print ("Error reading JSON file: " ++ exn_message err) ],
     Return false).
Proof.
  intros Hload. unfold generate_sql_migration. rewrite Hload. reflexivity.
Qed.

(** Whatever has a length can be iterated. *)
Lemma len_iter (data : json) (n : nat) :
  Py.len data = Return n -> exists cities, Py.iter data = Return cities.
Proof.
  destruct data; simpl; intros H; try discriminate H; eexists; reflexivity.
Qed.

(** The file [generate_sql_migration] writes. *)
Lemma generate_loaded_written (e : env) (data : json) (n : nat)
    (cities : list json) :
  load_result e = Return data ->
  Py.len data = Return n ->
  Py.iter data = Return cities ->
  written (sql_file e) (events (generate_sql_migration e)) =
  match outcome (process_cities cities []), write_error e with
  | Return values, None => Some (sql_text (sql_header n (date_status e)) values)
  | _, _ => None
  end.
Proof.
  intros Hload Hlen Hiter.
  rewrite (generate_loaded e data n cities Hload Hlen Hiter). cbv zeta.
  destruct (process_cities_spec cities []) as [Hp _].
  pose proof (written_prints (sql_file e) _ Hp) as Hw.
  destruct (outcome (process_cities cities [])) as [values | ex].
  - destruct (write_error e) as [[err | err reached] |]; cbn [events fst].
    + rewrite !written_app. cbn [written]. rewrite Hw. reflexivity.
    + rewrite !written_app. cbn [written]. rewrite Hw. reflexivity.
    + rewrite !written_app. cbn [written]. rewrite String.eqb_refl. reflexivity.
  - cbn [events fst]. rewrite written_app, Hw. reflexivity.
Qed.

(** Every file the run writes has this shape, the count and the values
    being determined by the loaded data alone. *)
Lemma generate_written_shape (e : env) (data : json) (content : string) :
  load_result e = Return data ->
  written (sql_file e) (events (generate_sql_migration e)) = Some content ->
  exists n cities values,
    Py.len data = Return n
    /\ Py.iter data = Return cities
    /\ outcome (process_cities cities []) = Return values
    /\ write_error e = None
    /\ content = sql_text (sql_header n (date_status e)) values.
Proof.
  intros Hload Hw.
  destruct (Py.len data) as [n | ex] eqn:Hlen.
  - destruct (len_iter data n Hlen) as [cities Hiter].
    rewrite (generate_loaded_written e data n cities Hload Hlen Hiter) in Hw.
    destruct (outcome (process_cities cities [])) as [values | ex] eqn:Hloop;
      [| discriminate Hw].
    destruct (write_error e) as [err |] eqn:Herr; [discriminate Hw |].
    injection Hw as <-. exists n, cities, values. auto.
  - rewrite (generate_no_len e data ex Hload Hlen) in Hw. discriminate Hw.
Qed.

(** [main] once the input file is there and the output directory is made:
    what [generate_sql_migration] does, then the closing messages. *)
Lemma main_runs (e : env) :
  json_file_exists e = true ->
  mkdir_error e = None ->
  exists closing,
    forallb is_print closing = true
    /\ events (main e) = (events (generate_sql_migration e) ++ closing)%list
    /\ outcome (main e) =
       match outcome (generate_sql_migration e) with
       | Return true => Return 0
       | Return false => Return 1
       | Raise ex => Raise ex
       end.
Proof.
  intros Hexists Hmkdir. unfold main. rewrite Hexists, Hmkdir. cbn [negb].
  destruct (generate_sql_migration e) as [out [[|] | ex]].
  - eexists. split; [| split]; [| reflexivity | reflexivity]. reflexivity.
  - eexists. split; [| split]; [| reflexivity | reflexivity]. reflexivity.
  - exists []. split; [| split]; [reflexivity | | reflexivity].
    cbn. rewrite app_nil_r. reflexivity.
Qed.

Lemma migration_written_main (e : env) :
  json_file_exists e = true ->
  mkdir_error e = None ->
  migration_written e = written (sql_file e) (events (generate_sql_migration e)).
Proof.
  intros Hexists Hmkdir.
  destruct (main_runs e Hexists Hmkdir) as (closing & Hp & Hev & _).
  unfold migration_written. rewrite Hev, written_app.
  rewrite (written_prints _ _ Hp). reflexivity.
Qed.

(** ** Text *)

Lemma string_app_assoc (a b c : string) : (a ++ b) ++ c = a ++ b ++ c.
Proof. induction a as [| x a IH]; simpl; [reflexivity | now rewrite IH]. Qed.

Lemma sql_header_split (n : nat) (t : Z) :
  sql_header n t
  = header_before_timestamp n ++ Text.of_Z t ++ header_after_timestamp.
Proof.
  unfold sql_header, header_before_timestamp, header_after_timestamp,
    header_below_timestamp.
  cbn [unlines]. rewrite !string_app_assoc. reflexivity.
Qed.

(** [replace] of the quote by two quotes doubles every quote. *)
Lemma replace_quote_fuel (s : string) :
  forall fuel, (String.length s < fuel)%nat ->
    Text.replace_fuel fuel "'" "''" s = double_quotes s.
Proof.
  induction s as [| c s IH]; intros fuel Hfuel.
  - destruct fuel; [inversion Hfuel | reflexivity].
  - destruct fuel as [| fuel]; [inversion Hfuel |].
    simpl in Hfuel. apply PeanoNat.lt_S_n in Hfuel.
    cbn [Text.replace_fuel Text.strip_prefix double_quotes].
    change Text.squote with "'"%char.
    rewrite (Ascii.eqb_sym c "'").
    destruct (Ascii.eqb "'" c); cbn; rewrite (IH fuel Hfuel); reflexivity.
Qed.

Lemma replace_quote (s : string) :
  Text.replace "'" "''" s = double_quotes s.
Proof. apply replace_quote_fuel. unfold lt. apply le_n. Qed.

Lemma in_set_iff (x : string) (s : list string) :
  in_set x s = true <-> In x s.
Proof.
  unfold in_set. rewrite existsb_exists. split.
  - intros (y & Hy & Heq). apply String.eqb_eq in Heq. now subst.
  - intros H. exists x. split; [exact H | apply String.eqb_refl].
Qed.

Lemma distinct_NoDup (names : list string) :
  distinct names = true -> NoDup names.
Proof.
  induction names as [| x rest IH]; intros H; [constructor |].
  cbn [distinct] in H. apply andb_prop in H. destruct H as [Hx Hrest].
  constructor; [| exact (IH Hrest)].
  intros Hin. apply in_set_iff in Hin. rewrite Hin in Hx. discriminate Hx.
Qed.

(** [latitude == 0] holds of the two zeros and of nothing else. *)
Lemma is_zero_iff (x : PyFloat.float) :
  is_zero x = true <-> exists s, x = S754_zero s.
Proof.
  split.
  - destruct x as [s | s | | s m e]; try (destruct s); intros H;
      try discriminate H; eexists; reflexivity.
  - intros [s ->]. reflexivity.
Qed.

Lemma is_major_city_iff (name_en : option string) :
  is_major_city name_en = true
  <-> exists s, name_en = Some s /\ In s major_cities.
Proof.
  unfold is_major_city. split.
  - destruct name_en as [s |]; [| discriminate].
    destruct (Text.is_empty s); [discriminate |].
    intros H. exists s. split; [reflexivity | now apply in_set_iff].
  - intros (s & -> & Hin). apply in_set_iff in Hin.
    destruct s as [| c s]; [discriminate Hin | exact Hin].
Qed.

(** The tuple of a record without a usable name. *)
Lemma sql_value_absent_name (latitude longitude : PyFloat.float) :
  sql_value None latitude longitude
  = "('None', 'Sri Lanka', 'Sri Lanka', "
      ++ PyFloat.repr latitude ++ ", " ++ PyFloat.repr longitude
      ++ ", NULL, false, 'Asia/Colombo')".
Proof. reflexivity. Qed.

Lemma clean_value_None_iff (value : json) :
  clean_value value = None
  <-> value = JNull \/ value = JStr "NULL" \/ value = JStr EmptyString.
Proof.
  unfold clean_value. split.
  - destruct value as [ | b | n | x | s | items | members]; simpl;
      try discriminate; auto.
    destruct (String.eqb s "NULL") eqn:H1.
    + apply String.eqb_eq in H1. subst. auto.
    + destruct (String.eqb s EmptyString) eqn:H2; [| discriminate].
      apply String.eqb_eq in H2. subst. auto.
  - intros [-> | [-> | ->]]; reflexivity.
Qed.


(** A record that is not an object ends the loop with the handler's own
    exception, whatever comes after it. *)
Lemma non_object_record_aborts (city : json) (rest : list json)
    (values : list string) :
  is_object city = false ->
  process_cities (city :: rest) values
  = ([], Raise (Exn AttributeError
                  ("'" ++ Py.type_name city ++ "' object has no attribute 'get'"))).
Proof.
  intros H. cbn [process_cities]. rewrite (guarded_non_object city H).
  reflexivity.
Qed.

(** The loop ends with no value exactly when every record is an object and
    none of them is accepted. *)
Lemma loop_yields_nothing_iff (cities : list json) :
  outcome (process_cities cities []) = Return []
  <-> forallb is_object cities = true /\ filter accepted cities = [].
Proof.
  split.
  - intros H. apply process_cities_returns in H. destruct H as [Hobj Hvs].
    split; [exact Hobj |].
    destruct (filter accepted cities); [reflexivity | discriminate Hvs].
  - intros [Hobj Hnone].
    rewrite (process_cities_objects cities [] Hobj), Hnone. reflexivity.
Qed.

(** ** The claims *)

(** C1 does not hold of the code: an accepted record whose [name_en] is
    [null], the string ["NULL"], the empty string or missing altogether gets
    ['None'] as its name field, a quoted string literal, where the claim
    asks for an unquoted SQL NULL.  The population of the same tuples shows
    the rendering the name misses. *)
Theorem C1_absent_name_is_quoted_None :
  let coords := [ ("latitude", JFloat lat_colombo);
                  ("longitude", JFloat lon_colombo) ] in
  let tuple :=
    "('None', 'Sri Lanka', 'Sri Lanka', 6.9271, 79.8612, NULL, false, 'Asia/Colombo')" in
  process_cities
    [ unnamed;
      JObj (("name_en", JStr "NULL") :: coords);
      JObj (("name_en", JStr EmptyString) :: coords);
      JObj coords ] []
  = ([], Return [tuple; tuple; tuple; tuple]).
Proof. vm_compute. reflexivity. Qed.



(** C3: in the tuple of every accepted record the population reads 100000
    and the flag reads true exactly when the cleaned name is one of the 21
    names of [major_cities], compared as they are spelt; for every other
    name, and for an absent one, they read NULL and false. *)
Theorem C3_major_city_flag_and_population (city : json) (out : list event)
    (value : string) :
  process_city city = (out, Return (Some value)) ->
  exists latitude longitude,
    coordinates city = Some (latitude, longitude)
    /\ List.length major_cities = 21%nat
    /\ NoDup major_cities
    /\ let listed := exists s, name_of city = Some s /\ In s major_cities in
       let fields := fun tail =>
         "('" ++ show_name (name_of city) ++ "', 'Sri Lanka', 'Sri Lanka', "
           ++ PyFloat.repr latitude ++ ", " ++ PyFloat.repr longitude
           ++ ", " ++ tail in
       (listed -> value = fields "100000, true, 'Asia/Colombo')")
       /\ (~ listed -> value = fields "NULL, false, 'Asia/Colombo')").
Proof.
  intros H.
  destruct (process_city_value city out value H)
    as (members & lat & lon & _ & Hc & _ & _ & Hv & _).
  exists lat, lon. split; [exact Hc |]. split; [reflexivity |].
  split; [apply distinct_NoDup; reflexivity |].
  cbv zeta. subst value. unfold sql_value.
  split.
  - intros Hl. apply is_major_city_iff in Hl. rewrite Hl. reflexivity.
  - intros Hl. destruct (is_major_city (name_of city)) eqn:Hm.
    + apply is_major_city_iff in Hm. contradiction.
    + reflexivity.
Qed.

Lemma C3_major_city_flag_and_population_witness :
  exists latitude longitude,
    coordinates colombo = Some (latitude, longitude)
    /\ "('Colombo', 'Sri Lanka', 'Sri Lanka', 6.9271, 79.8612, 100000, true, 'Asia/Colombo')"
       = "('" ++ show_name (name_of colombo) ++ "', 'Sri Lanka', 'Sri Lanka', "
           ++ PyFloat.repr latitude ++ ", " ++ PyFloat.repr longitude
           ++ ", " ++ "100000, true, 'Asia/Colombo')".
Proof.
  destruct (C3_major_city_flag_and_population colombo []
              "('Colombo', 'Sri Lanka', 'Sri Lanka', 6.9271, 79.8612, 100000, true, 'Asia/Colombo')")
    as (lat & lon & Hc & _ & _ & Hyes & _).
  - vm_compute. reflexivity.
  - exists lat, lon. split; [exact Hc |]. apply Hyes.
    exists "Colombo". split; [reflexivity | left; reflexivity].
Defined.



(** C5 does not hold of the code for a record that is not an object: the
    [city.get] of the handler raises in its turn, nothing catches that, and
    the batch is aborted; no file is written and the process ends with
    status 1, the valid record after it being never looked at. *)
Theorem C5_non_object_record_aborts_batch :
  let e := sample_env (JArr [JInt 5; colombo]) 0 in
  let error := Exn AttributeError "'int' object has no attribute 'get'" in
  process_cities [JInt 5; colombo] [] = ([], Raise error)
  /\ main e = ([ Print "Reading JSON data from: sri_lanka_cities.json";
                 Print "Loaded 2 cities";
                 System "date" ],
               Raise error)
  /\ migration_written e = None
  /\ exit_status e = 1.
Proof. vm_compute. auto. Qed.



(** C7: whenever [clean_value] gives a text, it is [str(value)] with every
    single quote doubled; so the name O'Brien stands as O''Brien between the
    quotes of its tuple. *)
Theorem C7_clean_value_doubles_quotes :
  (forall (value : json) (s : string),
      clean_value value = Some s -> s = double_quotes (Py.str value))
  /\ (forall latitude longitude,
         sql_value (clean_value (JStr "O'Brien")) latitude longitude
         = "('O''Brien', 'Sri Lanka', 'Sri Lanka', "
             ++ PyFloat.repr latitude ++ ", " ++ PyFloat.repr longitude
             ++ ", NULL, false, 'Asia/Colombo')").
Proof.
  split.
  - intros value s. unfold clean_value.
    destruct (Py.is_None value || Py.eq_str value "NULL"
              || Py.eq_str value EmptyString); [discriminate |].
    intros H. injection H as <-. apply replace_quote.
  - intros latitude longitude. reflexivity.
Qed.

Lemma C7_clean_value_doubles_quotes_witness :
  clean_value (JStr "O'Brien") = Some "O''Brien"
  /\ "O''Brien" = double_quotes (Py.str (JStr "O'Brien")).
Proof.
  split.
  - reflexivity.
  - apply (proj1 C7_clean_value_doubles_quotes (JStr "O'Brien") "O''Brien").
    reflexivity.
Defined.



(** C9: the "Generated:" field of every file the generator writes is the
    integer status that [os.system("date")] returned, written in decimal;
    where the command succeeds, with status 0, the field reads 0. *)
Theorem C9_generated_field_is_the_date_status (e : env) (content : string) :
  written (sql_file e) (events (generate_sql_migration e)) = Some content ->
  In (System "date") (events (generate_sql_migration e))
  /\ exists total_cities rest,
       content = header_before_timestamp total_cities
                   ++ Text.of_Z (date_status e) ++ Text.nl ++ rest
       /\ (date_status e = 0 ->
           content = header_before_timestamp total_cities
                       ++ "0" ++ Text.nl ++ rest).
Proof.
  intros Hw.
  destruct (load_result e) as [data | err] eqn:Hload.
  - destruct (generate_written_shape e data content Hload Hw)
      as (n & cities & values & Hn & Hi & Hl & Herr & ->).
    split.
    + rewrite (generate_loaded e data n cities Hload Hn Hi). cbv zeta.
      rewrite Hl, Herr. cbn [events fst app]. right. right. left. reflexivity.
    + exists n.
      exists (header_below_timestamp
                ++ Text.join ("," ++ Text.nl) values
                ++ on_conflict_clause ++ verification_queries).
      assert (Heq : sql_text (sql_header n (date_status e)) values
                    = header_before_timestamp n ++ Text.of_Z (date_status e)
                        ++ Text.nl
                        ++ header_below_timestamp
                        ++ Text.join ("," ++ Text.nl) values
                        ++ on_conflict_clause ++ verification_queries).
      { unfold sql_text. rewrite sql_header_split.
        unfold header_after_timestamp. rewrite !string_app_assoc.
        reflexivity. }
      split; [exact Heq |].
      intros H0. rewrite Heq, H0. reflexivity.
  - rewrite (generate_unreadable e err Hload) in Hw. discriminate Hw.
Qed.

Lemma C9_generated_field_is_the_date_status_witness :
  let e := sample_env (JArr [colombo]) 0 in
  In (System "date") (events (generate_sql_migration e))
  /\ exists total_cities rest,
       sql_text (sql_header 1 0) [tuple_of colombo]
       = header_before_timestamp total_cities
           ++ Text.of_Z (date_status e) ++ Text.nl ++ rest
       /\ (date_status e = 0 ->
           sql_text (sql_header 1 0) [tuple_of colombo]
           = header_before_timestamp total_cities ++ "0" ++ Text.nl ++ rest).
Proof.
  intros e.
  apply (C9_generated_field_is_the_date_status e
           (sql_text (sql_header 1 0) [tuple_of colombo])).
  vm_compute. reflexivity.
Defined.

(** C10 does not hold of the code for an array with a record that is not an
    object: no record of [null, nowhere] is accepted, yet the handler's
    [city.get] raises on the first one, the run is aborted after the date
    command, the destination is not touched and the process ends with
    status 1.  The array holding the second record alone, which is left for
    its zero coordinates, gives the file the claim describes. *)
Theorem C10_non_object_record_leaves_no_file :
  let e := sample_env (JArr [JNull; nowhere]) 0 in
  filter accepted [JNull; nowhere] = []
  /\ main e
     = ([ Print "Reading JSON data from: sri_lanka_cities.json";
          Print "Loaded 2 cities";
          System "date" ],
        Raise (Exn AttributeError "'NoneType' object has no attribute 'get'"))
  /\ migration_written e = None
  /\ destination_after e = Untouched
  /\ exit_status e = 1
  /\ exit_status (sample_env (JArr [nowhere]) 0) = 0
  /\ migration_written (sample_env (JArr [nowhere]) 0)
     = Some "-- Migration: Import Complete Sri Lankan Cities Dataset
-- Source: https://github.com/SKIDDOW/SriLankaCitiesDatabase
-- Total Cities: 1
-- Generated: 0

-- Delete existing Sri Lankan cities to avoid duplicates
DELETE FROM cities WHERE country = 'Sri Lanka';

-- Insert complete Sri Lankan cities dataset
INSERT INTO cities (
    name,
    country,
    state,
    latitude,
    longitude,
    population,
    is_major_city,
    timezone
) VALUES

ON CONFLICT (name, country) DO UPDATE SET
    latitude = EXCLUDED.latitude,
    longitude = EXCLUDED.longitude,
    state = EXCLUDED.state,
    population = EXCLUDED.population,
    is_major_city = EXCLUDED.is_major_city;

-- Verify import
SELECT
    COUNT(*) as total_cities,
    COUNT(CASE WHEN is_major_city THEN 1 END) as major_cities,
    MIN(latitude) as min_lat,
    MAX(latitude) as max_lat,
    MIN(longitude) as min_lng,
    MAX(longitude) as max_lng
FROM cities
WHERE country = 'Sri Lanka';

-- Sample query: Find cities near Colombo (within 50km)
SELECT name, latitude, longitude,
    ROUND(ST_Distance(
        geom,
        ST_SetSRID(ST_MakePoint(79.8612, 6.9271), 4326)::geography
    ) / 1000, 2) as distance_km
FROM cities
WHERE country = 'Sri Lanka'
    AND ST_DWithin(
        geom,
        ST_SetSRID(ST_MakePoint(79.8612, 6.9271), 4326)::geography,
        50000
    )
ORDER BY distance_km
LIMIT 10;
".
Proof. vm_compute. repeat split; reflexivity. Qed.

(** * Further properties of the script *)

(** ** The record loop *)







(** ** [clean_value] *)

Lemma string_app_empty (a b : string) :
  a ++ b = EmptyString -> a = EmptyString /\ b = EmptyString.
Proof. destruct a; simpl; [auto | discriminate]. Qed.

Lemma of_Z_not_empty (z : Z) : Text.of_Z z <> EmptyString.
Proof.
  unfold Text.of_Z. destruct (Z.to_int z) as [d | d]; simpl.
  - destruct d; discriminate.
  - discriminate.
Qed.

Lemma float_repr_not_empty (x : PyFloat.float) : PyFloat.repr x <> EmptyString.
Proof.
  destruct x as [s | s | | s m e]; simpl; try (destruct s; discriminate);
    try discriminate.
  destruct (PyFloat.shortest_digits (Zpos m) e) as [ds decpt].
  intros H. apply string_app_empty in H. destruct H as [_ H].
  unfold PyFloat.format_digits in H.
  destruct ((decpt <=? -4) || (16 <? decpt)).
  - apply string_app_empty in H. destruct H as [_ H].
    apply string_app_empty in H. destruct H as [_ H].
    unfold PyFloat.format_exponent in H.
    apply string_app_empty in H. destruct H as [H _].
    destruct (decpt - 1 <? 0); discriminate H.
  - destruct (decpt <=? 0); [discriminate H |].
    destruct (Z.of_nat (String.length ds) <=? decpt).
    + apply string_app_empty in H. destruct H as [_ H].
      apply string_app_empty in H. destruct H as [_ H]. discriminate H.
    + apply string_app_empty in H. destruct H as [_ H]. discriminate H.
Qed.

Lemma str_not_empty (value : json) :
  Py.eq_str value EmptyString = false -> Py.str value <> EmptyString.
Proof.
  destruct value as [ | b | n | x | s | items | members]; simpl; intros H;
    try discriminate.
  - destruct b; discriminate.
  - apply of_Z_not_empty.
  - apply float_repr_not_empty.
  - intros ->. discriminate H.
Qed.

Lemma double_quotes_empty (s : string) :
  double_quotes s = EmptyString -> s = EmptyString.
Proof.
  destruct s as [| c s]; [reflexivity |]. simpl.
  destruct (Ascii.eqb c Text.squote); discriminate.
Qed.

Lemma double_quotes_injective (a : string) :
  forall b, double_quotes a = double_quotes b -> a = b.
Proof.
  induction a as [| c a IH]; intros b H.
  - symmetry. apply double_quotes_empty. symmetry. exact H.
  - destruct b as [| d b].
    + apply double_quotes_empty in H. discriminate H.
    + cbn [double_quotes] in H.
      destruct (Ascii.eqb c Text.squote) eqn:Hc;
        destruct (Ascii.eqb d Text.squote) eqn:Hd.
      * apply Ascii.eqb_eq in Hc, Hd. subst c d.
        injection H as H. f_equal. exact (IH b H).
      * injection H as H1 H2. subst d. discriminate Hd.
      * injection H as H1 H2. subst c. discriminate Hc.
      * injection H as -> H. f_equal. exact (IH b H).
Qed.

(** X4: [clean_value] gives [None] for exactly three values: [None], the
    string "NULL" spelt so, and the empty string.  Every other value, a
    number 0 or a [false] included, comes out as a text. *)
Theorem clean_value_absent_iff (value : json) :
  (clean_value value = None
   <-> value = JNull \/ value = JStr "NULL" \/ value = JStr EmptyString)
  /\ (clean_value value <> None
      <-> clean_value value = Some (double_quotes (Py.str value))).
Proof.
  split; [apply clean_value_None_iff |].
  split.
  - intros H. destruct (clean_value value) as [s |] eqn:Hs; [| contradiction].
    unfold clean_value in Hs.
    destruct (Py.is_None value || Py.eq_str value "NULL"
              || Py.eq_str value EmptyString); [discriminate Hs |].
    injection Hs as <-. rewrite replace_quote. reflexivity.
  - intros ->. discriminate.
Qed.

(** X5: the text [clean_value] gives is never empty, so that the test
    [if name_en] of line 82 only tells [None] from a text: a cleaned name is
    a major city exactly when it is in the set. *)
Theorem cleaned_name_is_never_empty (value : json) :
  clean_value value <> Some EmptyString
  /\ is_major_city (clean_value value)
     = match clean_value value with
       | Some s => in_set s major_cities
       | None => false
       end.
Proof.
  assert (H : clean_value value <> Some EmptyString).
  { unfold clean_value.
    destruct (Py.is_None value || Py.eq_str value "NULL") eqn:H1;
      [discriminate |].
    destruct (Py.eq_str value EmptyString) eqn:H2; [discriminate |].
    cbn [orb]. intros Hs. injection Hs as Hs.
    rewrite replace_quote in Hs. apply double_quotes_empty in Hs.
    exact (str_not_empty value H2 Hs). }
  split; [exact H |].
  destruct (clean_value value) as [[| c s] |]; [contradiction | |];
    reflexivity.
Qed.

(** X6: two names that differ are never cleaned to the same text: doubling
    the quotes loses nothing of a name. *)
Theorem clean_value_injective_on_names (a b s : string) :
  a <> b ->
  clean_value (JStr a) = Some s ->
  clean_value (JStr b) <> Some s.
Proof.
  intros Hab Ha Hb. apply Hab.
  apply double_quotes_injective.
  unfold clean_value in Ha, Hb.
  destruct (Py.is_None (JStr a) || Py.eq_str (JStr a) "NULL"
            || Py.eq_str (JStr a) EmptyString); [discriminate Ha |].
  destruct (Py.is_None (JStr b) || Py.eq_str (JStr b) "NULL"
            || Py.eq_str (JStr b) EmptyString); [discriminate Hb |].
  injection Ha as Ha. injection Hb as Hb.
  rewrite replace_quote in Ha, Hb. cbn [Py.str] in Ha, Hb. congruence.
Qed.

Lemma clean_value_injective_on_names_witness :
  clean_value (JStr "O''Brien") <> Some "O''Brien"
  /\ clean_value (JStr "O''Brien") = Some "O''''Brien".
Proof.
  split.
  - apply (clean_value_injective_on_names "O'Brien" "O''Brien" "O''Brien").
    + discriminate.
    + reflexivity.
  - reflexivity.
Defined.

(** X7: each of the 21 names of the set, given as it is spelt for the
    [name_en] of a record, passes [clean_value] unchanged and gives a tuple
    with population 100000 and the flag true. *)
Theorem listed_name_gives_major_city_tuple (name : string)
    (latitude longitude : PyFloat.float) :
  In name major_cities ->
  clean_value (JStr name) = Some name
  /\ sql_value (clean_value (JStr name)) latitude longitude
     = "('" ++ name ++ "', 'Sri Lanka', 'Sri Lanka', "
         ++ PyFloat.repr latitude ++ ", " ++ PyFloat.repr longitude
         ++ ", 100000, true, 'Asia/Colombo')".
Proof.
  intros Hin. unfold major_cities in Hin. cbn [In] in Hin.
  repeat (destruct Hin as [<- | Hin]; [split; reflexivity |]).
  contradiction.
Qed.

Lemma listed_name_gives_major_city_tuple_witness :
  sql_value (clean_value (JStr "Nuwara Eliya")) lat_colombo lon_colombo
  = "('Nuwara Eliya', 'Sri Lanka', 'Sri Lanka', 6.9271, 79.8612, 100000, true, 'Asia/Colombo')".
Proof.
  destruct (listed_name_gives_major_city_tuple "Nuwara Eliya"
              lat_colombo lon_colombo) as [_ H].
  - unfold major_cities. cbn [In]. do 16 right. left. reflexivity.
  - rewrite H. vm_compute. reflexivity.
Defined.

(** ** Coordinates that are not numbers of the plane *)




(** ** The whole run, continued *)




(** [generate_sql_migration] returns [True] exactly when it wrote the file. *)
Lemma generate_true_iff_written (e : env) :
  outcome (generate_sql_migration e) = Return true
  <-> exists content,
        written (sql_file e) (events (generate_sql_migration e)) = Some content.
Proof.
  destruct (load_result e) as [data | err] eqn:Hload.
  - destruct (Py.len data) as [n | ex] eqn:Hlen.
    + destruct (len_iter data n Hlen) as [cities Hiter].
      rewrite (generate_loaded_written e data n cities Hload Hlen Hiter).
      rewrite (generate_loaded e data n cities Hload Hlen Hiter). cbv zeta.
      destruct (outcome (process_cities cities [])) as [values | ex].
      * destruct (write_error e) as [werr |]; cbn [outcome snd]; split;
          try discriminate; try (intros [c Hc]; discriminate Hc).
        -- intros _. eexists. reflexivity.
        -- reflexivity.
      * cbn [outcome snd]. split; [discriminate |].
        intros [c Hc]. discriminate Hc.
    + rewrite (generate_no_len e data ex Hload Hlen). cbn. split;
        [discriminate | intros [c Hc]; discriminate Hc].
  - rewrite (generate_unreadable e err Hload). cbn. split;
      [discriminate | intros [c Hc]; discriminate Hc].
Qed.

(** ** Documents that are not arrays *)

Lemma main_raises (e : env) (ex : exn) :
  json_file_exists e = true ->
  mkdir_error e = None ->
  outcome (generate_sql_migration e) = Raise ex ->
  outcome (main e) = Raise ex /\ exit_status e = 1.
Proof.
  intros Hexists Hmkdir Hgen.
  destruct (main_runs e Hexists Hmkdir) as (closing & _ & _ & Hmain).
  rewrite Hgen in Hmain. unfold exit_status. rewrite Hmain. auto.
Qed.

(** X11: when the document is [null], a boolean or a number, [len] raises
    a [TypeError] that nothing catches: the run stops after its first line,
    before the date command, and the process ends with status 1 without a
    file. *)
Theorem scalar_document_stops_the_run (e : env) (data : json) :
  load_result e = Return data ->
  is_scalar data = true ->
  generate_sql_migration e
  = ([Print ("Reading JSON data from: " ++ json_file e)],
     Raise (Exn TypeError
              ("object of type '" ++ Py.type_name data ++ "' has no len()")))
  /\ (json_file_exists e = true -> mkdir_error e = None ->
      exit_status e = 1 /\ migration_written e = None).
Proof.
  intros Hload Hscalar.
  assert (Hlen : Py.len data
                 = Raise (Exn TypeError
                            ("object of type '" ++ Py.type_name data
                               ++ "' has no len()")))
    by (destruct data; try discriminate Hscalar; reflexivity).
  pose proof (generate_no_len e data _ Hload Hlen) as Hgen.
  split; [exact Hgen |].
  intros Hexists Hmkdir. split.
  - eapply main_raises; [exact Hexists | exact Hmkdir |].
    rewrite Hgen. reflexivity.
  - rewrite (migration_written_main e Hexists Hmkdir), Hgen. reflexivity.
Qed.

Lemma scalar_document_stops_the_run_witness :
  let e := sample_env (JInt 42) 0 in
  main e
  = ([Print "Reading JSON data from: sri_lanka_cities.json"],
     Raise (Exn TypeError "object of type 'int' has no len()"))
  /\ exit_status e = 1.
Proof.
  intros e.
  destruct (scalar_document_stops_the_run e (JInt 42) eq_refl eq_refl)
    as [_ H].
  destruct (H eq_refl eq_refl) as [Hexit _].
  split; [vm_compute; reflexivity | exact Hexit].
Defined.

(** X12: when the document is an object, the loop runs over its keys.  With
    no key the file is written as for an empty array; with at least one the
    first key, a [str], has no [get] and the run is aborted after the date
    command, without a file. *)
Theorem object_document_is_iterated_by_key (e : env)
    (members : list (string * json)) :
  load_result e = Return (JObj members) ->
  match members with
  | [] =>
      write_error e = None ->
      written (sql_file e) (events (generate_sql_migration e))
      = Some (sql_header 0 (date_status e)
                ++ on_conflict_clause ++ verification_queries)
      /\ outcome (generate_sql_migration e) = Return true
  | _ :: _ =>
      generate_sql_migration e
      = ([ Print ("Reading JSON data from: " ++ json_file e);
           Print ("Loaded " ++ Text.of_nat (List.length members) ++ " cities");
           System "date" ],
         Raise (Exn AttributeError "'str' object has no attribute 'get'"))
      /\ written (sql_file e) (events (generate_sql_migration e)) = None
  end.
Proof.
  intros Hload.
  pose proof (generate_loaded e (JObj members) (List.length members)
                (map (fun kv => JStr (fst kv)) members) Hload eq_refl eq_refl)
    as Hgen.
  cbv zeta in Hgen.
  destruct members as [| [k v] members].
  - intros Hwrite.
    cbn [map process_cities ret outcome events fst snd app] in Hgen.
    rewrite Hwrite in Hgen.
    rewrite Hgen. cbn [events outcome fst snd written].
    rewrite String.eqb_refl. split; reflexivity.
  - cbn [map fst] in Hgen.
    rewrite (non_object_record_aborts (JStr k) _ [] eq_refl) in Hgen.
    cbn [outcome events fst snd app Py.type_name] in Hgen.
    rewrite Hgen. split; reflexivity.
Qed.

Lemma object_document_is_iterated_by_key_witness :
  let e := sample_env (JObj [("cities", JArr [colombo])]) 0 in
  outcome (generate_sql_migration e)
  = Raise (Exn AttributeError "'str' object has no attribute 'get'")
  /\ written (sql_file e) (events (generate_sql_migration e)) = None
  /\ outcome (generate_sql_migration (sample_env (JObj []) 0)) = Return true.
Proof.
  intros e.
  destruct (object_document_is_iterated_by_key e
              [("cities", JArr [colombo])] eq_refl) as [Hgen Hw].
  destruct (object_document_is_iterated_by_key (sample_env (JObj []) 0)
              [] eq_refl eq_refl) as [_ Hok].
  rewrite Hgen. split; [reflexivity | split; [| exact Hok]].
  rewrite <- Hgen. exact Hw.
Defined.

(** ** Failures of the two files *)

(** X13: when the input file cannot be opened or parsed, the error is
    printed, the date command is not run, no record is looked at and no file
    is written; [main] adds its failure line and returns 1. *)
Theorem unreadable_input_is_reported (e : env) (err : exn) :
  json_file_exists e = true ->
  mkdir_error e = None ->
  load_result e = Raise err ->
  exists failure,
    main e
    = ([ Print ("Reading JSON data from: " ++ json_file e);
         Print ("Error reading JSON file: " ++ exn_message err);
         Print failure ],
       Return 1)
    /\ exit_status e = 1
    /\ migration_written e = None.
Proof.
  intros Hexists Hmkdir Hload.
  pose proof (generate_unreadable e err Hload) as Hgen.
  assert (Hmain : exists failure,
             main e
             = ([ Print ("Reading JSON data from: " ++ json_file e);
                  Print ("Error reading JSON file: " ++ exn_message err);
                  Print failure ],
                Return 1)).
  { unfold main. rewrite Hexists, Hmkdir, Hgen. eexists. reflexivity. }
  destruct Hmain as [failure Hmain]. exists failure.
  split; [exact Hmain | split].
  - unfold exit_status. rewrite Hmain. reflexivity.
  - unfold migration_written. rewrite Hmain. reflexivity.
Qed.

Lemma unreadable_input_is_reported_witness :
  let e := {| json_file := "sri_lanka_cities.json";
              sql_file := "003_import_sri_lankan_cities.sql";
              json_file_exists := true;
              mkdir_error := None;
              load_result := Raise (Exn ValueError "Expecting value: line 1 column 1 (char 0)");
              date_status := 0;
              write_error := None |} in
  exit_status e = 1 /\ migration_written e = None.
Proof.
  intros e.
  destruct (unreadable_input_is_reported e
              (Exn ValueError "Expecting value: line 1 column 1 (char 0)")
              eq_refl eq_refl eq_refl) as (failure & _ & Hexit & Hw).
  split; [exact Hexit | exact Hw].
Defined.

(** ** The state of the destination *)










(** ** An input without an accepted record *)


